(** * ForceCode: the sfdx command runner and the bulk-load status poller

    A shallow embedding of [DXService.runCommand] / [DXService.execAnon]
    (services/dxService.ts) and of [checkStatus] (commands/bulkLoader.ts),
    with the properties of the external-command layer stated over it.

    JavaScript strings are modelled as [string]; the parsed stdout as a
    tree of JSON values; the event-driven parts (stream callbacks, the
    cancellation emitter, the polling timer) as explicit state passing over
    the list of events in delivery order. *)

From Stdlib Require Import String Ascii List Bool Arith ZArith QArith Lia.
From Stdlib Require Import DecimalString.
Import ListNotations.

Set Warnings "-register-all".

Local Close Scope Q_scope.
Local Open Scope nat_scope.
Local Open Scope string_scope.
Local Open Scope list_scope.

(** [a +++ b] is JavaScript's string [a + b]. *)
Notation "a +++ b" := (String.append a b) (at level 60, right associativity).

(* ===================================================================== *)
(** * JavaScript string primitives                                         *)
(* ===================================================================== *)

Module JsString.

(** [s.startsWith(p)]. *)
Fixpoint startsWith (p s : string) : bool :=
  match p, s with
  | EmptyString, _ => true
  | String _ _, EmptyString => false
  | String a p', String b s' => Ascii.eqb a b && startsWith p' s'
  end.

(** [s.includes(sub)], which is also [s.indexOf(sub) > -1]. *)
Fixpoint includes (sub s : string) : bool :=
  startsWith sub s ||
  match s with
  | EmptyString => false
  | String _ s' => includes sub s'
  end.

(** [s.split(sep)] for a non-empty separator: scan from the left; at a
    position where [sep] starts, close the current piece and skip the
    separator ([skip] counts the characters of it still to drop). *)
Fixpoint split_go (sep : string) (skip : nat) (s : string) : list string :=
  match s with
  | EmptyString => [EmptyString]
  | String c rest =>
      match skip with
      | S k => split_go sep k rest
      | O =>
          if startsWith sep s
          then EmptyString :: split_go sep (String.length sep - 1) rest
          else match split_go sep 0 rest with
               | piece :: pieces => String c piece :: pieces
               | [] => [String c EmptyString]
               end
      end
  end.

(** [s.split(sep)]; an empty separator splits into single characters. *)
Definition split (sep s : string) : list string :=
  match sep with
  | EmptyString => map (fun c => String c EmptyString) (list_ascii_of_string s)
  | String _ _ => split_go sep 0 s
  end.

(** [pieces.join(sep)]. *)
Fixpoint join (sep : string) (pieces : list string) : string :=
  match pieces with
  | [] => EmptyString
  | piece :: rest =>
      match rest with
      | [] => piece
      | _ :: _ => piece +++ sep +++ join sep rest
      end
  end.

(** [c.toLowerCase()] on one code unit: only A-Z have an ASCII image. *)
Definition lower_ascii (c : ascii) : ascii :=
  let n := nat_of_ascii c in
  if Nat.leb 65 n && Nat.leb n 90 then ascii_of_nat (n + 32) else c.

(** [s.toLowerCase()]. *)
Fixpoint toLowerCase (s : string) : string :=
  match s with
  | EmptyString => EmptyString
  | String c s' => String (lower_ascii c) (toLowerCase s')
  end.

End JsString.

(* ===================================================================== *)
(** * ArgumentCodec: the space sentinel of execAnon and runCommand         *)
(* ===================================================================== *)

Module ArgumentCodec.
Import JsString.

(** The literal ['#FC*SPACE*#'] of dxService.ts lines 93 and 183. *)
Definition SENTINEL : string := "#FC*SPACE*#".

(** execAnon, line 183: [file.split(' ').join('#FC*SPACE*#')]. *)
Definition encode (file : string) : string :=
  join SENTINEL (split " " file).

(** runCommand, line 93: [arg.split('#FC*SPACE*#').join(' ')]. *)
Definition decode (arg : string) : string :=
  join " " (split SENTINEL arg).

(** For a pattern [u], the texts [v ++ " "] with [v ++ "#"] a prefix of
    [u]: an encoded space puts a ['#'] where [u] expects one. *)
Fixpoint spoilers (u : string) : list string :=
  match u with
  | EmptyString => []
  | String a u' =>
      (if Ascii.eqb a "#" then [" "] else []) ++ map (String a) (spoilers u')
  end.

End ArgumentCodec.

(* ===================================================================== *)
(** * JavaScript values: what JSON.parse returns and how it is coerced     *)
(* ===================================================================== *)

Module Js.

(** A JavaScript number. Every finite double is a rational, and the sign
    and the zero test are all the program asks of one. *)
Inductive number : Type :=
| NaN
| Finite (q : Q)
| PosInfinity
| NegInfinity.

(** The values of [JSON.parse]; an object as its own properties. *)
Inductive json : Type :=
| JNull
| JBool (b : bool)
| JNumber (n : number)
| JString (s : string)
| JArray (items : list json)
| JObject (fields : list (string * json)).

(** An [Error] object, as far as the program reads it. *)
Record ErrorObj : Type := mkError { message : string; stack : string }.

(** The values that flow through runCommand and checkStatus. *)
Inductive value : Type :=
| Undefined
| Json (j : json)
| ErrorObject (e : ErrorObj).

(** [new Error()] : the message is the empty string of Error.prototype;
    the stack is the one of the calling site. *)
Definition new_Error (stack_here : string) : ErrorObj :=
  {| message := EmptyString; stack := stack_here |}.

Definition of_nat (n : nat) : number := Finite (inject_Z (Z.of_nat n)).

(** [n > 0] on numbers. *)
Definition number_pos (n : number) : bool :=
  match n with
  | NaN => false
  | Finite q => Z.ltb 0 (Qnum q)
  | PosInfinity => true
  | NegInfinity => false
  end.

Definition nonempty (s : string) : bool :=
  match s with EmptyString => false | String _ _ => true end.

(** ToBoolean. *)
Definition truthy_json (j : json) : bool :=
  match j with
  | JNull => false
  | JBool b => b
  | JNumber NaN => false
  | JNumber (Finite q) => negb (Z.eqb (Qnum q) 0)
  | JNumber _ => true
  | JString s => nonempty s
  | JArray _ => true
  | JObject _ => true
  end.

Definition truthy (v : value) : bool :=
  match v with
  | Undefined => false
  | Json j => truthy_json j
  | ErrorObject _ => true
  end.

(** [null] and [undefined]: where [?.] short-circuits and [.] throws. *)
Definition nullish (v : value) : bool :=
  match v with
  | Undefined => true
  | Json JNull => true
  | _ => false
  end.

Fixpoint lookup (name : string) (fields : list (string * json)) : value :=
  match fields with
  | [] => Undefined
  | (k, v) :: rest => if String.eqb k name then Json v else lookup name rest
  end.

(** [v.name] on a value that is not nullish, for the property names this
    program reads (status, result, exitCode, message, error, length,
    state, numberRecordsProcessed, numberRecordsFailed): none of them is
    on a built-in prototype, apart from the [length] of arrays and
    strings. *)
Definition get (v : value) (name : string) : value :=
  match v with
  | Json (JObject fields) => lookup name fields
  | Json (JArray items) =>
      if String.eqb name "length" then Json (JNumber (of_nat (List.length items)))
      else Undefined
  | Json (JString s) =>
      if String.eqb name "length" then Json (JNumber (of_nat (String.length s)))
      else Undefined
  | ErrorObject e =>
      if String.eqb name "message" then Json (JString (message e))
      else if String.eqb name "stack" then Json (JString (stack e))
      else Undefined
  | _ => Undefined
  end.

(** [v?.name]. *)
Definition get_opt (v : value) (name : string) : value :=
  if nullish v then Undefined else get v name.

(** [v !== 'text']. *)
Definition strict_neq_string (v : value) (text : string) : bool :=
  match v with
  | Json (JString s) => negb (String.eqb s text)
  | _ => true
  end.

End Js.

(** The two conversions between numbers and their text, and the JSON
    grammar, belong to the JavaScript engine: the program is modelled over
    any engine. [JSON_parse] returns [None] where [JSON.parse] throws. *)
Class Engine : Type := {
  JSON_parse : string -> option Js.json;
  StringToNumber : string -> Js.number;
  NumberToString : Q -> string
}.

Module Coerce.
Import Js.

Section WithEngine.
Context {engine : Engine}.

Definition number_text (n : number) : string :=
  match n with
  | NaN => "NaN"
  | Finite q => NumberToString q
  | PosInfinity => "Infinity"
  | NegInfinity => "-Infinity"
  end.

(** Whether the conversion of a JSON value to a primitive goes through.
    An object made by [JSON.parse] inherits [valueOf], which returns the
    object itself, and [toString], which returns '[object Object]'; a
    property of its own named toString is never a function and hides the
    inherited one, and the conversion then ends in a TypeError. An array
    converts through [join], which converts every element but [null]. *)
Fixpoint converts (j : json) : bool :=
  match j with
  | JArray items => forallb converts items
  | JObject fields =>
      match lookup "toString" fields with
      | Undefined => true
      | _ => false
      end
  | _ => true
  end.

(** The text of a JSON value whose conversion goes through; an array is
    its elements joined by commas, with [null] elements left empty. *)
Fixpoint plain_text (j : json) : string :=
  match j with
  | JNull => "null"
  | JBool true => "true"
  | JBool false => "false"
  | JNumber n => number_text n
  | JString s => s
  | JArray items =>
      JsString.join ","
        (map (fun x => match x with JNull => EmptyString | _ => plain_text x end) items)
  | JObject _ => "[object Object]"
  end.

(** ToString on a JSON value; [None] for the TypeError. *)
Definition json_text (j : json) : option string :=
  if converts j then Some (plain_text j) else None.

Definition error_text (e : ErrorObj) : string :=
  match message e with
  | EmptyString => "Error"
  | String _ _ => "Error: " +++ message e
  end.

(** The text of a value whose conversion goes through. *)
Definition text (v : value) : string :=
  match v with
  | Undefined => "undefined"
  | Json j => plain_text j
  | ErrorObject e => error_text e
  end.

(** ToString, as applied by [v + ' ']; [None] for the TypeError. *)
Definition ToString (v : value) : option string :=
  match v with
  | Undefined => Some "undefined"
  | Json j => json_text j
  | ErrorObject e => Some (error_text e)
  end.

(** ToNumber, as applied by [v > 0]; [None] for the TypeError. An object
    that converts gives the text '[object Object]', which is no number. *)
Definition ToNumber (v : value) : option number :=
  match v with
  | Undefined => Some NaN
  | Json JNull => Some (of_nat 0)
  | Json (JBool true) => Some (of_nat 1)
  | Json (JBool false) => Some (of_nat 0)
  | Json (JNumber n) => Some n
  | Json (JString s) => Some (StringToNumber s)
  | Json (JArray items) =>
      match json_text (JArray items) with
      | Some joined => Some (StringToNumber joined)
      | None => None
      end
  | Json (JObject fields) =>
      if converts (JObject fields) then Some NaN else None
  | ErrorObject _ => Some NaN
  end.

(** [v > 0]; [None] when the conversion of [v] throws. *)
Definition gt_zero (v : value) : option bool :=
  match ToNumber v with
  | Some n => Some (number_pos n)
  | None => None
  end.

End WithEngine.
End Coerce.

(* ===================================================================== *)
(** * DXService.runCommand                                                 *)
(* ===================================================================== *)

Module DXService.
Import Js Coerce JsString.

(** What runCommand reads from its surroundings: the user name of
    [fcConnection.currentConnection] when there is one, [isWindows()],
    and the stack of the calling site that [new Error()] records. *)
Record Ambient : Type := {
  currentConnection : option string;
  isWindows : bool;
  stack_at_call : string
}.

(** What [spawn] hands back, as far as line 106 and line 110 look. *)
Record ChildProcess : Type := {
  pid : option Z;
  has_stdout : bool;
  has_stderr : bool
}.

(** The arguments of one call. A token is its emitter: the pids captured
    by the [killPromise] listeners already registered on 'cancelled'. *)
Record Call : Type := {
  cmdString : string;
  targetusername : bool;
  cancellationToken : option (list (option Z));
  bypassReject : option bool
}.

Inductive LogEntry : Type :=
| LogText (text : string)
| LogError (e : ErrorObj).

(** How the close listener ends: it resolves, it rejects, or a TypeError
    leaves it before either (the promise then stays pending). *)
Inductive Outcome : Type :=
| Resolve (v : value)
| Reject (reason : value)
| Throw.

(** The variables the closures of one call share, with the two sinks of
    [notifications] and the calls made to tree-kill. *)
Record State : Type := {
  stdout : string;
  sfdxNotFound : bool;
  log : list LogEntry;
  shown : list string;
  listening : bool;
  emitter : list (option Z);
  kills : list (option Z);
  promise : option Outcome
}.

Inductive Event : Type :=
| StdoutData (data : string)
| StderrData (data : string)
| ProcessError (data : ErrorObj)
| Cancelled.

Definition dquote : string := String (ascii_of_nat 34) EmptyString.

Definition REMEDIATION : string :=
  "ForceCode: The SFDX CLI could not be found. Please download from [https://developer.salesforce.com/tools/sfdxcli](https://developer.salesforce.com/tools/sfdxcli) and install, then restart Visual Studio Code.".

(** Lines 74-88. *)
Definition fullCommand (amb : Ambient) (c : Call) : string :=
  let base :=
    "sfdx force:" +++ cmdString c +++
    (match targetusername c, currentConnection amb with
     | true, Some username => " --targetusername " +++ username
     | _, _ => EmptyString
     end) in
  let cmd := if isWindows amb then "cmd /c " +++ base else base in
  if includes "--json" cmd then cmd else cmd +++ " --json".

(** Lines 90-94. *)
Definition parts (amb : Ambient) (c : Call) : list string :=
  split " " (fullCommand amb c).

Definition commandName (amb : Ambient) (c : Call) : option string :=
  hd_error (parts amb c).

Definition args (amb : Ambient) (c : Call) : list string :=
  map ArgumentCodec.decode (tl (parts amb c)).

(** Line 84. *)
Definition error (amb : Ambient) : ErrorObj := new_Error (stack_at_call amb).

(** Lines 104-112: the executor of the promise, up to the registration
    of the listeners. *)
Definition start (c : Call) (cmd : option ChildProcess) : State :=
  let blank (registered : bool) (listeners : list (option Z)) (p : option Outcome) :=
    {| stdout := EmptyString; sfdxNotFound := false; log := []; shown := [];
       listening := registered; emitter := listeners; kills := [];
       promise := p |} in
  let token_listeners :=
    match cancellationToken c with Some ls => ls | None => [] end in
  match cmd with
  | None => blank false token_listeners (Some (Reject Undefined))
  | Some child =>
      if has_stdout child && has_stderr child then
        match cancellationToken c with
        | Some ls => blank true (ls ++ [pid child]) None
        | None => blank true [] None
        end
      else blank false token_listeners (Some (Reject Undefined))
  end.

(** Lines 114-116. *)
Definition onStdout (st : State) (data : string) : State :=
  {| stdout := stdout st +++ data; sfdxNotFound := sfdxNotFound st;
     log := log st; shown := shown st; listening := listening st;
     emitter := emitter st; kills := kills st; promise := promise st |}.

(** Lines 118-126. *)
Definition onStderr (st : State) (data : string) : State :=
  let theErr := data in
  {| stdout := stdout st;
     sfdxNotFound :=
       if nonempty theErr then
         let theErr := toLowerCase theErr in
         includes "not found" theErr || includes "not recognized" theErr
       else sfdxNotFound st;
     log := log st ++ [LogText theErr]; shown := shown st;
     listening := listening st; emitter := emitter st; kills := kills st;
     promise := promise st |}.

(** Lines 128-131. *)
Definition onError (st : State) (data : ErrorObj) : State :=
  {| stdout := stdout st;
     sfdxNotFound := includes "ENOENT" (message data);
     log := log st ++ [LogError data]; shown := shown st;
     listening := listening st; emitter := emitter st; kills := kills st;
     promise := promise st |}.

(** Lines 169-176, run for the listener that captured [target]. *)
Definition killPromise (st : State) (target : option Z) : State :=
  {| stdout := stdout st; sfdxNotFound := sfdxNotFound st;
     log := log st ++ [LogText "Cancelling task..."]; shown := shown st;
     listening := listening st; emitter := emitter st;
     kills := kills st ++ [target]; promise := promise st |}.

(** [cancellationEmitter.emit('cancelled')]: every listener, in the
    order of registration. *)
Definition onCancelled (st : State) : State :=
  fold_left killPromise (emitter st) st.

Section CloseListener.
Context {engine : Engine}.

(** [code && code > 0]. *)
Definition code_positive (code : option Z) : bool :=
  match code with
  | Some z => negb (Z.eqb z 0) && Z.ltb 0 z
  | None => false
  end.

(** The test of lines 147-152, its operands evaluated from left to right
    and no further than [&&] and [||] need; [None] when a comparison
    with zero throws. *)
Definition shouldReject (bypass : option bool) (code : option Z) (json : value)
    : option bool :=
  if match bypass with Some b => b | None => false end then Some false
  else if code_positive code && negb (truthy json) then Some true
  else
    match gt_zero (get_opt json "status") with
    | None => None
    | Some true =>
        if negb (truthy (get json "result")) then Some true
        else gt_zero (get_opt json "exitCode")
    | Some false => gt_zero (get_opt json "exitCode")
    end.

(** The callback of line 157 over the items; [None] when [res.error]
    is read on a [null] item or has no text. *)
Fixpoint forEach_error (errMess : string) (items : list json) : option string :=
  match items with
  | [] => Some errMess
  | JNull :: _ => None
  | res :: rest =>
      match ToString (get (Json res) "error") with
      | Some item_text => forEach_error (errMess +++ (item_text +++ " ")) rest
      | None => None
      end
  end.

(** Lines 154-160: [None] for a TypeError, else the final [errMess]. *)
Definition errMess (json : value) : option value :=
  match gt_zero (get_opt (get_opt json "result") "length") with
  | None => None
  | Some true =>
      match get json "result" with
      | Json (JArray items) =>
          match forEach_error EmptyString items with
          | Some text => Some (Json (JString text))
          | None => None
          end
      | _ => None
      end
  | Some false => Some Undefined
  end.

(** [a || b]. *)
Definition or_else (a b : value) : value := if truthy a then a else b.

(** Line 161. *)
Definition rejectReason (err : ErrorObj) (json mess : value) : value :=
  or_else mess
    (or_else (get_opt json "message")
       (or_else (get_opt (ErrorObject err) "message") (ErrorObject err))).

(** Lines 146-164. *)
Definition settle (bypass : option bool) (err : ErrorObj)
    (code : option Z) (json : value) : Outcome :=
  match shouldReject bypass code json with
  | None => Throw
  | Some true =>
      match errMess json with
      | Some mess => Reject (rejectReason err json mess)
      | None => Throw
      end
  | Some false => Resolve (get_opt json "result")
  end.

(** Lines 134-139: [json] stays undefined when the parse throws. *)
Definition parsed_stdout (st : State) : value :=
  match JSON_parse (stdout st) with
  | Some j => Json j
  | None => Undefined
  end.

(** Lines 133-165. *)
Definition onClose (amb : Ambient) (c : Call) (st : State) (code : option Z) : State :=
  let parsed := JSON_parse (stdout st) in
  let json := parsed_stdout st in
  {| stdout := stdout st; sfdxNotFound := sfdxNotFound st;
     log :=
       match parsed with
       | Some _ => log st
       | None =>
           log st ++ [LogText ("No parsable results from command " +++
                               dquote +++ fullCommand amb c +++ dquote)]
       end;
     shown := if sfdxNotFound st then shown st ++ [REMEDIATION] else shown st;
     listening := listening st; emitter := emitter st; kills := kills st;
     promise :=
       match promise st with
       | Some settled => Some settled
       | None => Some (settle (bypassReject c) (error amb) code json)
       end |}.

(** The text one item of the result list contributes: its [error],
    followed by the space of line 158. (Where the [error] of an item has
    no text the close listener throws, and rejects with nothing.) *)
Definition item_error (res : json) : string :=
  text (get (Json res) "error") +++ " ".

(** An item of the result list the callback of line 157 can read: not
    [null], and with an [error] that has a text. *)
Definition readable_item (res : json) : Prop :=
  res <> JNull /\ ToString (get (Json res) "error") <> None.

(** The precedence of the specification for the failure message, in
    its words: the per-item error strings of a non-empty result list,
    concatenated in list order; else the message field of the JSON;
    else the context captured before the call. *)
Definition failure_by_precedence (err : ErrorObj) (json : value) : value :=
  match get json "result" with
  | Json (JArray (first :: others)) =>
      Json (JString
              (fold_right String.append EmptyString
                 (map item_error (first :: others))))
  | _ =>
      if truthy (get json "message") then get json "message"
      else ErrorObject err
  end.

End CloseListener.

(** One event delivered to the call; the stream and error listeners
    exist only when line 106 let the call through. *)
Definition step (st : State) (ev : Event) : State :=
  match ev with
  | StdoutData data => if listening st then onStdout st data else st
  | StderrData data => if listening st then onStderr st data else st
  | ProcessError data => if listening st then onError st data else st
  | Cancelled => onCancelled st
  end.

Definition deliver (st : State) (evs : list Event) : State :=
  fold_left step evs st.

(** The call when the process is about to close: spawned, and the
    events [before] delivered in order. *)
Definition atClose (c : Call) (cmd : option ChildProcess)
    (before : list Event) : State :=
  deliver (start c cmd) before.

(** A whole call: spawn, the events before close, then close. *)
Definition runCommand {engine : Engine} (amb : Ambient) (c : Call)
    (cmd : option ChildProcess) (before : list Event) (code : option Z) : State :=
  let st := atClose c cmd before in
  if listening st then onClose amb c st code else st.

(** Lines 179-185. *)
Definition execAnon {engine : Engine} (amb : Ambient) (file : string)
    (token : list (option Z)) :=
  let file := ArgumentCodec.encode file in
  runCommand amb
    {| cmdString := "apex:execute --apexcodefile " +++ file;
       targetusername := true;
       cancellationToken := Some token;
       bypassReject := None |}.

(** Two states that agree on the fields no listener before close
    touches. *)
Definition same_frame (a b : State) : Prop :=
  shown a = shown b /\ listening a = listening b /\
  emitter a = emitter b /\ promise a = promise b.

(** The three outcomes of the specification's ResultClassifier. *)
Inductive CommandOutcome : Type :=
| Success (parsedResult : value)
| Failure (message : value)
| ToolNotFound.

(** What the caller of the promise can observe of it: fulfilled with a
    value, or rejected with a reason. *)
Definition observed (p : option Outcome) : option CommandOutcome :=
  match p with
  | Some (Resolve v) => Some (Success v)
  | Some (Reject reason) => Some (Failure reason)
  | _ => None
  end.

End DXService.

(* ===================================================================== *)
(** * BulkLoader.checkStatus: the status polling loop                      *)
(* ===================================================================== *)

Module BulkLoader.
Import Js.

(** How one [await batch.check()] ends. *)
Inductive CheckResult : Type :=
| Returns (res : value)
| Throws (e : value).

(** The object of lines 134-138 handed to [panel.webview.postMessage]. *)
Record Message : Type := {
  state : value;
  processed : value;
  failures : value
}.

(** How the async callback of [setTimeout] ends. *)
Inductive Completion : Type :=
| Fulfilled
| RejectedWith (e : value).

(** [timeOut] is the variable of line 40; [pending] are the timers set
    and neither fired nor cleared; [checks] counts the calls of
    [batch.check]; [escaped] collects what the callbacks rejected with. *)
Record Poller : Type := {
  timeOut : option nat;
  pending : list nat;
  fresh : nat;
  checks : nat;
  posted : list Message;
  escaped : list value
}.

Definition initial : Poller :=
  {| timeOut := None; pending := []; fresh := 0; checks := 0;
     posted := []; escaped := [] |}.

Definition clearTimeout (id : nat) (timers : list nat) : list nat :=
  filter (fun t => negb (Nat.eqb t id)) timers.

(** Lines 127-144, up to the body of the callback: clear the timer held
    in [timeOut], set a new one. *)
Definition checkStatus (st : Poller) : Poller :=
  let timers :=
    match timeOut st with
    | Some id => clearTimeout id (pending st)
    | None => pending st
    end in
  {| timeOut := Some (fresh st); pending := timers ++ [fresh st];
     fresh := S (fresh st); checks := checks st; posted := posted st;
     escaped := escaped st |}.

Definition postMessage (st : Poller) (m : Message) : Poller :=
  {| timeOut := timeOut st; pending := pending st; fresh := fresh st;
     checks := checks st; posted := posted st ++ [m];
     escaped := escaped st |}.

Definition called (st : Poller) : Poller :=
  {| timeOut := timeOut st; pending := pending st; fresh := fresh st;
     checks := S (checks st); posted := posted st;
     escaped := escaped st |}.

(** The object literal of lines 134-138. *)
Definition message_of (res : value) : Message :=
  {| state := get res "state";
     processed := get res "numberRecordsProcessed";
     failures := get res "numberRecordsFailed" |}.

(** Line 139 stops the loop on [res.status === 'Completed']. *)
Definition isTerminal (res : value) : bool :=
  negb (strict_neq_string (get res "status") "Completed").

(** The [try] block of lines 133-141; the second component is the
    exception it ends with, if any: the one [batch.check] threw, or the
    TypeError of reading [res.state] on [null] or [undefined]. [check n]
    is what the call number [n] of [batch.check] does. *)
Definition tryBlock (check : nat -> CheckResult) (st : Poller) : Poller * option value :=
  let st1 := called st in
  match check (checks st) with
  | Throws e => (st1, Some e)
  | Returns res =>
      if nullish res then (st1, Some (Json (JString "TypeError")))
      else
        let st2 := postMessage st1 (message_of res) in
        if strict_neq_string (get res "status") "Completed"
        then (checkStatus st2, None)
        else (st2, None)
  end.

(** Lines 131-143: the callback; [catch (e) {}] ends it normally. *)
Definition timerCallback (check : nat -> CheckResult) (st : Poller) : Poller * Completion :=
  match tryBlock check st with
  | (st', Some _) => (st', Fulfilled)
  | (st', None) => (st', Fulfilled)
  end.

(** The oldest pending timer fires; with none pending nothing runs. *)
Definition fire (check : nat -> CheckResult) (st : Poller) : Poller :=
  match pending st with
  | [] => st
  | _ :: later =>
      let running :=
        {| timeOut := timeOut st; pending := later; fresh := fresh st;
           checks := checks st; posted := posted st;
           escaped := escaped st |} in
      match timerCallback check running with
      | (st', Fulfilled) => st'
      | (st', RejectedWith e) =>
          {| timeOut := timeOut st'; pending := pending st'; fresh := fresh st';
             checks := checks st'; posted := posted st';
             escaped := escaped st' ++ [e] |}
      end
  end.

(** The loop started at line 115, observed for [ticks] timer firings. *)
Fixpoint poll (ticks : nat) (check : nat -> CheckResult) (st : Poller) : Poller :=
  match ticks with
  | O => st
  | S n => poll n check (fire check st)
  end.

Definition run (ticks : nat) (check : nat -> CheckResult) : Poller :=
  poll ticks check (checkStatus initial).

(** What a check lets the loop report: nothing when it throws, or when
    reading [res.state] throws. *)
Definition update_of (r : CheckResult) : list Message :=
  match r with
  | Returns res => if nullish res then [] else [message_of res]
  | Throws _ => []
  end.

(** A check after which the loop sets the next timer. *)
Definition goes_on (r : CheckResult) : bool :=
  match r with
  | Returns res => negb (nullish res) && negb (isTerminal res)
  | Throws _ => false
  end.

(** What the loop has reported after the first [n] checks. *)
Definition updates (check : nat -> CheckResult) (n : nat) : list Message :=
  flat_map (fun i => update_of (check i)) (seq 0 n).

End BulkLoader.

(* ===================================================================== *)
(** * Sample surroundings for the worked examples                          *)
(* ===================================================================== *)

Module Samples.
Import Js DXService.

(** The text [{"status":1,"message":"No org"}]. *)
Definition failed_text : string :=
  "{" +++ dquote +++ "status" +++ dquote +++ ":1," +++
  dquote +++ "message" +++ dquote +++ ":" +++ dquote +++ "No org" +++ dquote +++ "}".

Definition failed_json : json :=
  JObject [("status", JNumber (of_nat 1)); ("message", JString "No org")].

(** An engine for the examples: it knows [JSON.parse] of the empty text
    (a SyntaxError), of ['{}'] and of [failed_text], the only texts the
    examples feed it, and treats any other text as unparsable. *)
Definition sample_engine : Engine := {|
  JSON_parse := fun text =>
    if String.eqb text "{}" then Some (JObject [])
    else if String.eqb text failed_text then Some failed_json
    else None;
  StringToNumber := fun _ => NaN;
  NumberToString := fun _ => "0"
|}.

Definition posix : Ambient :=
  {| currentConnection := Some "dev@example.org"; isWindows := false;
     stack_at_call := "Error at DXService.runCommand" |}.

Definition child (n : Z) : ChildProcess :=
  {| pid := Some n; has_stdout := true; has_stderr := true |}.

Definition call (cmd : string) (token : option (list (option Z)))
    (bypass : option bool) : Call :=
  {| cmdString := cmd; targetusername := true;
     cancellationToken := token; bypassReject := bypass |}.

Definition report_call : Call :=
  call "source:deploy:report -i 0Af" None (Some true).

Definition display_call : Call := call "org:display" None None.

(** What a POSIX shell prints, and exits with 127, when sfdx is absent. *)
Definition missing_tool : list Event :=
  [StderrData "sh: 1: sfdx: command not found"].

(** What cmd.exe prints when sfdx is absent, arriving in two chunks. *)
Definition missing_tool_windows : list Event :=
  [StderrData "'sfdx' is not recognized as an internal or external command,";
   StderrData "operable program or batch file."].

(** The error event of a spawn refused for lack of permission; close
    follows with the negated errno. *)
Definition spawn_refused : list Event :=
  [ProcessError {| message := "spawn sfdx EACCES"; stack := "Error: spawn sfdx EACCES" |}].

(** A [batch.check()] result with the given [state] and [status]. *)
Definition batchInfo (st status : string) : value :=
  Json (JObject [("state", JString st); ("status", JString status);
                 ("numberRecordsProcessed", JNumber (of_nat 10));
                 ("numberRecordsFailed", JNumber (of_nat 1))]).

(** A status check that answers 'InProgress' twice, then 'Completed'. *)
Definition three_step_check (n : nat) : BulkLoader.CheckResult :=
  match n with
  | 0 | 1 => BulkLoader.Returns (batchInfo "InProgress" "InProgress")
  | _ => BulkLoader.Returns (batchInfo "Completed" "Completed")
  end.

(** A status check that answers once, then fails. *)
Definition failing_check (n : nat) : BulkLoader.CheckResult :=
  match n with
  | 0 => BulkLoader.Returns (batchInfo "Queued" "Queued")
  | _ => BulkLoader.Throws (Json (JString "ECONNRESET"))
  end.

End Samples.

(* ===================================================================== *)
(** * DXService: the commands built on runCommand                          *)
(* ===================================================================== *)

Module DXCommands.
Import Js Coerce JsString DXService.

(** The call execAnon makes, lines 183-184. *)
Definition execAnon_call (file : string) (token : list (option Z)) : Call :=
  {| cmdString := "apex:execute --apexcodefile " +++ ArgumentCodec.encode file;
     targetusername := true;
     cancellationToken := Some token;
     bypassReject := None |}.

(** Lines 195-196: the call of orgList. *)
Definition orgList_call : Call :=
  {| cmdString := "org:list --clean --noprompt";
     targetusername := false;
     cancellationToken := None;
     bypassReject := None |}.

(** Lines 281-283. *)
Definition deleteSource (thePath : string) (token : list (option Z)) : Call :=
  {| cmdString := "source:delete -p " +++ thePath +++ " -r";
     targetusername := true;
     cancellationToken := Some token;
     bypassReject := None |}.

(** Lines 285-292. *)
Definition getDeployErrors (deploymentId : string) (token : list (option Z)) : Call :=
  {| cmdString := "source:deploy:report -i " +++ deploymentId;
     targetusername := true;
     cancellationToken := Some token;
     bypassReject := Some true |}.

(** Lines 294-306; [packageXML] is optional. *)
Definition deploySourceFormat (pXMLPath : string) (token : list (option Z))
    (packageXML : option bool) : Call :=
  {| cmdString :=
       "source:deploy -" +++
       ((match packageXML with Some true => "x " | _ => "p" end) +++ pXMLPath);
     targetusername := true;
     cancellationToken := Some token;
     bypassReject := None |}.

(** What line 77-79 appends for the connection. *)
Definition userPart (amb : Ambient) (c : Call) : string :=
  match targetusername c, currentConnection amb with
  | true, Some username => " --targetusername " +++ username
  | _, _ => EmptyString
  end.

(** The arguments that precede ['force:...'] : on Windows the command is
    [cmd], and [/c sfdx] come first. *)
Definition shellArgs (amb : Ambient) : list string :=
  if isWindows amb then ["/c"; "sfdx"] else [].

(** An entry of [fcConnection.getChildren()]. *)
Record Connection : Type := {
  orgName : string;
  isLoggedIn : bool
}.

(** What orgList's promise is fulfilled with: the array or the text that
    [concat] returns, or [undefined] from the catch. *)
Inductive OrgResult : Type :=
| OrgArray (items : list value)
| OrgText (text : string)
| OrgUndefined.

Inductive Chained : Type :=
| Fulfilled (v : OrgResult)
| Rejected (reason : value)
| Pending.

Section WithEngine.
Context {engine : Engine}.

(** Line 198, [res.nonScratchOrgs.concat(res.scratchOrgs)]: [None] for the
    TypeError of reading on [undefined] or of a [concat] that is not a
    function. An array takes the elements of an array argument and any
    other argument as one element; a string appends the argument's text. *)
Definition concatOrgs (res : value) : option OrgResult :=
  if nullish res then None
  else
    match get res "nonScratchOrgs" with
    | Json (JArray items) =>
        Some (OrgArray
                (map Json items ++
                 match get res "scratchOrgs" with
                 | Json (JArray more) => map Json more
                 | other => [other]
                 end))
    | Json (JString s) =>
        match ToString (get res "scratchOrgs") with
        | Some more => Some (OrgText (s +++ more))
        | None => None
        end
    | _ => None
    end.

(** Lines 202-204. *)
Definition logoutAll (conns : list Connection) : list Connection :=
  map (fun curConn => {| orgName := orgName curConn; isLoggedIn := false |}) conns.

(** Lines 196-206, from the promise of runCommand to the promise of
    orgList, with the connections as the catch leaves them. *)
Definition orgList_chain (p : option Outcome) (conns : list Connection)
    : Chained * list Connection :=
  match p with
  | Some (Resolve res) =>
      match concatOrgs res with
      | Some v => (Fulfilled v, conns)
      | None => (Fulfilled OrgUndefined, logoutAll conns)
      end
  | Some (Reject _) => (Fulfilled OrgUndefined, logoutAll conns)
  | Some Throw => (Pending, conns)
  | None => (Pending, conns)
  end.

(** orgList over a whole run of the command. *)
Definition orgList (amb : Ambient) (cmd : option ChildProcess)
    (before : list Event) (code : option Z) (conns : list Connection)
    : Chained * list Connection :=
  orgList_chain (promise (runCommand amb orgList_call cmd before code)) conns.

End WithEngine.

(** The text the stdout listener has gathered from a list of events. *)
Fixpoint stdout_chunks (evs : list Event) : string :=
  match evs with
  | [] => EmptyString
  | StdoutData data :: rest => data +++ stdout_chunks rest
  | _ :: rest => stdout_chunks rest
  end.

(** The events that leave the tool-missing flag alone: stdout data,
    cancellation, and an empty stderr chunk. *)
Definition keeps_flag (ev : Event) : bool :=
  match ev with
  | StdoutData _ => true
  | StderrData data => negb (nonempty data)
  | ProcessError _ => false
  | Cancelled => true
  end.

(** What follows the command text in the command line is nothing, or
    starts with a space. *)
Definition tail_like (t : string) : Prop :=
  t = EmptyString \/ exists r, t = String " " r.

Definition is_cancelled (ev : Event) : bool :=
  match ev with
  | Cancelled => true
  | _ => false
  end.

(** Two states of a call that differ at most in the log and in the calls
    made to tree-kill. *)
Definition same_result (a b : State) : Prop :=
  stdout a = stdout b /\ sfdxNotFound a = sfdxNotFound b /\
  shown a = shown b /\ listening a = listening b /\
  emitter a = emitter b /\ promise a = promise b.

End DXCommands.

(* ===================================================================== *)
(** * BulkLoader: the file count and the callback of bulk.load             *)
(* ===================================================================== *)

Module BulkLoad.
Import Js Coerce JsString BulkLoader.

Definition newline : string := String (ascii_of_nat 10) EmptyString.

(** Line 58: [contents.split('\n').length - 1]. *)
Definition totalRecords (contents : string) : nat :=
  List.length (split newline contents) - 1.

(** How many times a character occurs. *)
Fixpoint occurrences (c : ascii) (s : string) : nat :=
  match s with
  | EmptyString => 0
  | String x rest => (if Ascii.eqb c x then 1 else 0) + occurrences c rest
  end.

(** [String(n)] for a count. *)
Definition decimal (n : nat) : string := NilZero.string_of_uint (Nat.to_uint n).

(** Line 86. *)
Definition HEADER : string :=
  DXService.dquote +++ "Line Number In CSV File" +++ DXService.dquote +++ "," +++
  DXService.dquote +++ "ERROR" +++ DXService.dquote +++ newline.

(** [v[0]]: [None] for the TypeError on [null] and [undefined]. *)
Definition first_of (v : value) : option value :=
  if nullish v then None
  else Some
    match v with
    | Json (JArray (x :: _)) => Json x
    | Json (JString (String c _)) => Json (JString (String c EmptyString))
    | Json (JObject fields) => lookup "0" fields
    | _ => Undefined
    end.

(** What the panel is sent besides the status objects, and the file the
    save dialog is opened for. *)
Inductive Notice : Type :=
| Uploading
| LoadError (shown : value)
| SaveErrorFile (errorFile : string).

Record Panel : Type := {
  poller : Poller;
  notices : list Notice
}.

(** Lines 78-80. *)
Definition clearPending (p : Poller) : Poller :=
  match timeOut p with
  | Some id =>
      {| timeOut := timeOut p; pending := clearTimeout id (pending p);
         fresh := fresh p; checks := checks p; posted := posted p;
         escaped := escaped p |}
  | None => p
  end.

Section WithEngine.
Context {engine : Engine}.

(** The line of the error file for the row at index [i], line 90; the
    errors of a row are the texts bulk.load reports. *)
Definition errorLine (i : nat) (first_error : value) : string :=
  DXService.dquote +++ decimal (i + 2) +++ DXService.dquote +++ "," +++
  DXService.dquote +++ text first_error +++ DXService.dquote +++ newline.

(** The loop of lines 87-92 from index [i] on; [None] when a row is
    [null] or a failed row has no [errors]. *)
Fixpoint scanRets (i : nat) (rets : list json) (totalErrors : nat)
    (errorFile : string) : option (nat * string) :=
  match rets with
  | [] => Some (totalErrors, errorFile)
  | ret :: rest =>
      if nullish (Json ret) then None
      else if truthy (get (Json ret) "success")
      then scanRets (S i) rest totalErrors errorFile
      else
        match first_of (get (Json ret) "errors") with
        | None => None
        | Some first_error =>
            scanRets (S i) rest (S totalErrors)
              (errorFile +++ errorLine i first_error)
        end
  end.

(** Lines 77-111: the callback of [bulk.load]. [records] is the variable
    [totalRecords], unset until a file was chosen. The second component
    tells whether the callback ended by a TypeError. *)
Definition onLoaded (err : value) (rets : list json) (records : option nat)
    (st : Panel) : Panel * bool :=
  let cleared := clearPending (poller st) in
  if truthy err then
    ({| poller := cleared;
        notices := notices st ++ [LoadError (DXService.or_else (get err "message") err)] |},
     false)
  else
    match scanRets 0 rets 0 HEADER with
    | None => ({| poller := cleared; notices := notices st |}, true)
    | Some (totalErrors, errorFile) =>
        ({| poller :=
              postMessage cleared
                {| state := Json (JString "Completed");
                   processed := match records with
                                | Some n => Json (JNumber (of_nat n))
                                | None => Undefined
                                end;
                   failures := Json (JString (decimal totalErrors)) |};
            notices :=
              if Nat.ltb 0 totalErrors
              then notices st ++ [SaveErrorFile errorFile]
              else notices st |},
         false)
    end.

Definition opened : Panel := {| poller := initial; notices := [] |}.

(** The panel together with the number of timer callbacks that have
    called [batch.check()] and wait at the [await] of line 133. *)
Record Session : Type := {
  panel : Panel;
  awaiting : nat
}.

(** What can happen to a session, one at a time: the webview asks for a
    load (lines 65-115 end in checkStatus); a timer fires and its
    callback runs up to the [await]; an awaited check ends and its
    callback runs on from there; the load calls back. *)
Inductive Moment : Type :=
| LoadRequested
| TimerFires
| CheckSettles (r : CheckResult)
| LoadEnds (err : value) (rets : list json) (records : option nat).

(** Lines 131-133: the oldest pending timer fires and its callback calls
    [batch.check()]; with none pending nothing runs. *)
Definition beginCheck (p : Poller) : option Poller :=
  match pending p with
  | [] => None
  | _ :: later =>
      Some (called {| timeOut := timeOut p; pending := later; fresh := fresh p;
                      checks := checks p; posted := posted p;
                      escaped := escaped p |})
  end.

(** Lines 133-142 from the [await] on, with what the check ended with;
    [catch (e) {}] swallows a throw. *)
Definition resumeCheck (r : CheckResult) (p : Poller) : Poller :=
  match r with
  | Throws _ => p
  | Returns res =>
      if nullish res then p
      else
        let p2 := postMessage p (message_of res) in
        if strict_neq_string (get res "status") "Completed"
        then checkStatus p2
        else p2
  end.

Definition happen (s : Session) (m : Moment) : Session :=
  match m with
  | LoadRequested =>
      {| panel := {| poller := checkStatus (poller (panel s));
                     notices := notices (panel s) ++ [Uploading] |};
         awaiting := awaiting s |}
  | TimerFires =>
      match beginCheck (poller (panel s)) with
      | Some p =>
          {| panel := {| poller := p; notices := notices (panel s) |};
             awaiting := S (awaiting s) |}
      | None => s
      end
  | CheckSettles r =>
      match awaiting s with
      | O => s
      | S others =>
          {| panel := {| poller := resumeCheck r (poller (panel s));
                         notices := notices (panel s) |};
             awaiting := others |}
      end
  | LoadEnds err rets records =>
      {| panel := fst (onLoaded err rets records (panel s));
         awaiting := awaiting s |}
  end.

Definition started : Session := {| panel := opened; awaiting := 0 |}.

End WithEngine.




(** At most one timer is pending, and it is the one [timeOut] holds. *)
Definition tracked (p : Poller) : Prop :=
  match pending p with
  | [] => True
  | [t] => timeOut p = Some t
  | _ :: _ :: _ => False
  end.

End BulkLoad.

(* ===================================================================== *)
(** * More sample surroundings                                             *)
(* ===================================================================== *)

Module MoreSamples.
Import Js DXService.

(** [s] between double quotes. *)
Definition q (s : string) : string := dquote +++ s +++ dquote.

(** The text [{"status":1,"result":{"id":"0Af"}}]. *)
Definition partial_text : string :=
  "{" +++ q "status" +++ ":1," +++ q "result" +++ ":{" +++
  q "id" +++ ":" +++ q "0Af" +++ "}}".

Definition partial_json : json :=
  JObject [("status", JNumber (of_nat 1));
           ("result", JObject [("id", JString "0Af")])].

(** The text [{"exitCode":1,"result":"boom"}]. *)
Definition text_result_text : string :=
  "{" +++ q "exitCode" +++ ":1," +++ q "result" +++ ":" +++ q "boom" +++ "}".

Definition text_result_json : json :=
  JObject [("exitCode", JNumber (of_nat 1)); ("result", JString "boom")].

(** The text
    [{"status":0,"result":{"nonScratchOrgs":[{"username":"a@x.org"}],"scratchOrgs":[{"username":"b@x.org"}]}}]. *)
Definition orgs_text : string :=
  "{" +++ q "status" +++ ":0," +++ q "result" +++ ":{" +++
  q "nonScratchOrgs" +++ ":[{" +++ q "username" +++ ":" +++ q "a@x.org" +++ "}]," +++
  q "scratchOrgs" +++ ":[{" +++ q "username" +++ ":" +++ q "b@x.org" +++ "}]}}".

Definition orgs_result : json :=
  JObject [("nonScratchOrgs", JArray [JObject [("username", JString "a@x.org")]]);
           ("scratchOrgs", JArray [JObject [("username", JString "b@x.org")]])].

Definition orgs_json : json :=
  JObject [("status", JNumber (of_nat 0)); ("result", orgs_result)].

(** An engine that knows [JSON.parse] of the three texts above and of the
    empty text, and treats any other text as unparsable. *)
Definition second_engine : Engine := {|
  JSON_parse := fun text =>
    if String.eqb text partial_text then Some partial_json
    else if String.eqb text text_result_text then Some text_result_json
    else if String.eqb text orgs_text then Some orgs_json
    else None;
  StringToNumber := fun _ => NaN;
  NumberToString := fun _ => "0"
|}.

(** The error event of a spawn that found no sfdx; close follows with
    the negated errno. *)
Definition spawn_enoent : list Event :=
  [ProcessError {| message := "spawn sfdx ENOENT"; stack := "Error: spawn sfdx ENOENT" |}].

Definition two_orgs : list DXCommands.Connection :=
  [{| DXCommands.orgName := "a@x.org"; DXCommands.isLoggedIn := true |};
   {| DXCommands.orgName := "b@x.org"; DXCommands.isLoggedIn := true |}].

(** Two rows of a bulk load: the first inserted, the second refused. *)
Definition two_rets : list json :=
  [JObject [("id", JString "001A"); ("success", JBool true); ("errors", JArray [])];
   JObject [("id", JNull); ("success", JBool false);
            ("errors", JArray [JString "REQUIRED_FIELD_MISSING"])]].

(** A status check whose results carry a [state] but no [status]. *)
Definition stateful_check (n : nat) : BulkLoader.CheckResult :=
  BulkLoader.Returns
    (Json (JObject [("state", JString "Completed");
                    ("numberRecordsProcessed", JNumber (of_nat 10));
                    ("numberRecordsFailed", JNumber (of_nat 0))])).

(** The text [{"status":{"toString":null},"exitCode":1}]. *)
Definition odd_status_text : string :=
  "{" +++ q "status" +++ ":{" +++ q "toString" +++ ":null}," +++
  q "exitCode" +++ ":1}".

Definition odd_status_json : json :=
  JObject [("status", JObject [("toString", JNull)]);
           ("exitCode", JNumber (of_nat 1))].

(** The text
    [{"exitCode":1,"message":"Deploy failed","result":[{"error":"bad class"},{"error":"bad trigger"}]}]. *)
Definition items_text : string :=
  "{" +++ q "exitCode" +++ ":1," +++ q "message" +++ ":" +++ q "Deploy failed" +++ "," +++
  q "result" +++ ":[{" +++ q "error" +++ ":" +++ q "bad class" +++ "},{" +++
  q "error" +++ ":" +++ q "bad trigger" +++ "}]}".

Definition items_json : json :=
  JObject [("exitCode", JNumber (of_nat 1));
           ("message", JString "Deploy failed");
           ("result", JArray [JObject [("error", JString "bad class")];
                              JObject [("error", JString "bad trigger")]])].

(** An engine that knows [JSON.parse] of the two texts above and of the
    empty text, and treats any other text as unparsable. *)
Definition third_engine : Engine := {|
  JSON_parse := fun text =>
    if String.eqb text odd_status_text then Some odd_status_json
    else if String.eqb text items_text then Some items_json
    else None;
  StringToNumber := fun _ => NaN;
  NumberToString := fun _ => "0"
|}.

End MoreSamples.

(* ===================================================================== *)
(** * Facts about split and join                                           *)
(* ===================================================================== *)

Section SplitJoin.
Import JsString.

Lemma startsWith_refl_app (u r : string) : startsWith u (u +++ r) = true.
Proof.
  induction u as [|a u IH]; simpl; [reflexivity|].
  now rewrite Ascii.eqb_refl, IH.
Qed.

Lemma split_go_nonempty (sep : string) (k : nat) (s : string) :
  split_go sep k s <> [].
Proof.
  revert k; induction s as [|c s IH]; intros k; simpl; [discriminate|].
  destruct k as [|k]; [|apply IH].
  destruct (startsWith sep (String c s)); [discriminate|].
  destruct (split_go sep 0 s); discriminate.
Qed.

Lemma split_go_skip (sep u r : string) :
  split_go sep (String.length u) (u +++ r) = split_go sep 0 r.
Proof.
  induction u as [|a u IH]; simpl; [reflexivity | exact IH].
Qed.

Lemma join_cons_char (rep : string) (c : ascii) (p : string) (ps : list string) :
  join rep (String c p :: ps) = String c (join rep (p :: ps)).
Proof. destruct ps; reflexivity. Qed.

(** The three equations of [s.split(sep).join(rep)], read as a scan. *)
Lemma replace_nil (sep rep : string) :
  join rep (split_go sep 0 EmptyString) = EmptyString.
Proof. reflexivity. Qed.

Lemma replace_hit (a : ascii) (sep' rep r : string) :
  join rep (split_go (String a sep') 0 (String a sep' +++ r))
  = rep +++ join rep (split_go (String a sep') 0 r).
Proof.
  change (String a sep' +++ r) with (String a (sep' +++ r)).
  cbn [split_go].
  change (String a (sep' +++ r)) with (String a sep' +++ r).
  rewrite startsWith_refl_app.
  cbn [String.length]. rewrite Nat.sub_succ, Nat.sub_0_r, split_go_skip.
  pose proof (split_go_nonempty (String a sep') 0 r) as Hne.
  destruct (split_go (String a sep') 0 r) as [|p ps]; [congruence|].
  reflexivity.
Qed.

Lemma replace_miss (sep rep : string) (c : ascii) (r : string) :
  startsWith sep (String c r) = false ->
  join rep (split_go sep 0 (String c r))
  = String c (join rep (split_go sep 0 r)).
Proof.
  intros Hmiss. cbn [split_go]. rewrite Hmiss.
  pose proof (split_go_nonempty sep 0 r) as Hne.
  destruct (split_go sep 0 r) as [|p ps]; [congruence|].
  apply join_cons_char.
Qed.

End SplitJoin.

(* ===================================================================== *)
(** * ArgumentCodec: the round trip                                        *)
(* ===================================================================== *)

Section Codec.
Import JsString ArgumentCodec.

Lemma encode_nil : encode EmptyString = EmptyString.
Proof. reflexivity. Qed.

Lemma encode_space (r : string) : encode (String " " r) = SENTINEL +++ encode r.
Proof. exact (replace_hit " "%char EmptyString SENTINEL r). Qed.

Lemma encode_other (c : ascii) (r : string) :
  c <> " "%char -> encode (String c r) = String c (encode r).
Proof.
  intros Hc. apply (replace_miss " " SENTINEL c r).
  cbn [startsWith]. destruct (Ascii.eqb_spec " "%char c) as [E|_]; [congruence|reflexivity].
Qed.

Lemma decode_sentinel (t : string) : decode (SENTINEL +++ t) = String " " (decode t).
Proof. exact (replace_hit "#"%char "FC*SPACE*#" " " t). Qed.

Lemma decode_other (c : ascii) (t : string) :
  startsWith SENTINEL (String c t) = false ->
  decode (String c t) = String c (decode t).
Proof. apply replace_miss. Qed.

Lemma startsWith_encode_inv (u s : string) :
  startsWith u (encode s) = true ->
  startsWith u s = true \/ exists v, In v (spoilers u) /\ startsWith v s = true.
Proof.
  revert s; induction u as [|a u IH]; intros s H; [left; reflexivity|].
  destruct s as [|c r]; [rewrite encode_nil in H; discriminate|].
  destruct (ascii_dec c " ") as [->|Hc].
  - rewrite encode_space in H. cbn [SENTINEL String.append startsWith] in H.
    apply andb_true_iff in H as [Ha _].
    right. exists " ". split; [|reflexivity].
    cbn [spoilers]. rewrite Ha. left; reflexivity.
  - rewrite (encode_other c r Hc) in H. cbn [startsWith] in H.
    apply andb_true_iff in H as [Hac Hu].
    destruct (IH r Hu) as [Hp | (v & Hv & Hp)].
    + left. cbn [startsWith]. now rewrite Hac, Hp.
    + right. exists (String a v). split.
      * cbn [spoilers]. apply in_or_app. right. now apply in_map.
      * cbn [startsWith]. now rewrite Hac, Hp.
Qed.

Lemma includes_head (u : string) (c : ascii) (r : string) :
  includes u (String c r) = false ->
  startsWith u (String c r) = false /\ includes u r = false.
Proof. cbn [includes]. intros H. now apply orb_false_iff in H. Qed.

Lemma roundtrip_aux (s : string) :
  includes SENTINEL s = false ->
  includes "#FC*SPACE* " s = false ->
  decode (encode s) = s.
Proof.
  induction s as [|c r IH]; intros Hs Hp; [reflexivity|].
  apply includes_head in Hs as [Hs0 Hs].
  apply includes_head in Hp as [Hp0 Hp].
  destruct (ascii_dec c " ") as [->|Hc].
  - rewrite encode_space, decode_sentinel, (IH Hs Hp). reflexivity.
  - rewrite (encode_other c r Hc).
    rewrite decode_other; [now rewrite (IH Hs Hp)|].
    destruct (startsWith SENTINEL (String c (encode r))) eqn:E; [|reflexivity].
    rewrite <- (encode_other c r Hc) in E.
    apply startsWith_encode_inv in E as [E | (v & Hv & E)]; [congruence|].
    cbn in Hv. destruct Hv as [<- | [<- | []]].
    + cbn [startsWith] in E. destruct (Ascii.eqb_spec " "%char c); [congruence|discriminate].
    + congruence.
Qed.

End Codec.

(** C7, as stated, fails: the sentinel starts and ends with ['#'], so a
    text that ends its first ten characters right before a space is
    encoded into two overlapping occurrences, and decoding takes the
    wrong one. The text below holds no sentinel, yet does not survive. *)
Lemma roundtrip_fails_before_space :
  JsString.includes ArgumentCodec.SENTINEL "#FC*SPACE* " = false /\
  ArgumentCodec.encode "#FC*SPACE* " = "#FC*SPACE*#FC*SPACE*#" /\
  ArgumentCodec.decode (ArgumentCodec.encode "#FC*SPACE* ") = " FC*SPACE*#" /\
  ArgumentCodec.decode (ArgumentCodec.encode "#FC*SPACE* ") <> "#FC*SPACE* ".
Proof. repeat split; try reflexivity. vm_compute. discriminate. Qed.

(** C7, amended: for every string that contains neither the sentinel nor
    the sentinel's first ten characters followed by a space, decoding the
    encoding gives the string back. *)
Theorem decode_encode_roundtrip (s : string) :
  JsString.includes ArgumentCodec.SENTINEL s = false ->
  JsString.includes "#FC*SPACE* " s = false ->
  ArgumentCodec.decode (ArgumentCodec.encode s) = s.
Proof. apply roundtrip_aux. Qed.

Lemma decode_encode_roundtrip_witness :
  ArgumentCodec.decode (ArgumentCodec.encode "/tmp/my project/exec Anon.tmp")
  = "/tmp/my project/exec Anon.tmp".
Proof. apply decode_encode_roundtrip; reflexivity. Defined.

(* ===================================================================== *)
(** * runCommand: what the listeners keep and change                       *)
(* ===================================================================== *)

Section Listeners.
Import Js Coerce JsString DXService.

Lemma same_frame_refl (a : State) : same_frame a a.
Proof. repeat split. Qed.

Lemma same_frame_trans (a b c : State) :
  same_frame a b -> same_frame b c -> same_frame a c.
Proof.
  intros (H1 & H2 & H3 & H4) (K1 & K2 & K3 & K4).
  repeat split; congruence.
Qed.

Lemma kill_all (ls : list (option Z)) (st : State) :
  let st' := fold_left killPromise ls st in
  same_frame st st' /\ stdout st' = stdout st /\
  sfdxNotFound st' = sfdxNotFound st /\ kills st' = kills st ++ ls.
Proof.
  revert st; induction ls as [|l ls IH]; intros st; cbn [fold_left].
  - repeat split. now rewrite app_nil_r.
  - destruct (IH (killPromise st l)) as (F & Ho & Hf & Hk).
    split; [|split; [|split]].
    + eapply same_frame_trans; [|exact F]. repeat split.
    + rewrite Ho. reflexivity.
    + rewrite Hf. reflexivity.
    + rewrite Hk. cbn [killPromise kills]. now rewrite <- app_assoc.
Qed.

Lemma step_frame (st : State) (ev : Event) : same_frame st (step st ev).
Proof.
  destruct ev; cbn [step];
    [destruct (listening st); repeat split ..
    |apply (kill_all (emitter st) st)].
Qed.

Lemma deliver_frame (evs : list Event) (st : State) :
  same_frame st (deliver st evs).
Proof.
  revert st; induction evs as [|ev evs IH]; intros st; [apply same_frame_refl|].
  eapply same_frame_trans; [apply (step_frame st ev)|apply IH].
Qed.

(** Without listeners the buffers never move. *)
Lemma deliver_unheard (evs : list Event) (st : State) :
  listening st = false ->
  stdout (deliver st evs) = stdout st /\
  sfdxNotFound (deliver st evs) = sfdxNotFound st.
Proof.
  revert st; induction evs as [|ev evs IH]; intros st Hl; [split; reflexivity|].
  cbn [deliver fold_left]. fold (deliver (step st ev) evs).
  assert (Hs : listening (step st ev) = false).
  { destruct (step_frame st ev) as (_ & H & _). congruence. }
  destruct (IH _ Hs) as [Ho Hf]. rewrite Ho, Hf.
  destruct ev; cbn [step]; rewrite ?Hl; try (split; reflexivity).
  destruct (kill_all (emitter st) st) as (_ & H1 & H2 & _). now split.
Qed.

Lemma start_listening (c : Call) (child : ChildProcess) :
  has_stdout child = true -> has_stderr child = true ->
  let st := start c (Some child) in
  listening st = true /\ promise st = None /\ shown st = [] /\
  emitter st = match cancellationToken c with
               | Some ls => ls ++ [pid child]
               | None => []
               end.
Proof.
  intros Ho He. unfold start. rewrite Ho, He. cbn [andb].
  destruct (cancellationToken c); repeat split.
Qed.

Lemma start_refused (c : Call) (cmd : option ChildProcess) :
  (cmd = None \/
   exists child, cmd = Some child /\
     (has_stdout child = false \/ has_stderr child = false)) ->
  start c cmd =
    {| stdout := EmptyString; sfdxNotFound := false; log := []; shown := [];
       listening := false;
       emitter := match cancellationToken c with Some ls => ls | None => [] end;
       kills := []; promise := Some (Reject Undefined) |}.
Proof.
  intros [-> | (child & -> & H)]; [reflexivity|].
  unfold start.
  assert (E : has_stdout child && has_stderr child = false).
  { destruct H as [-> | ->]; [reflexivity | apply andb_false_r]. }
  now rewrite E.
Qed.

End Listeners.

(* ===================================================================== *)
(** * runCommand: the close listener                                       *)
(* ===================================================================== *)

Section CloseFacts.
Import Js Coerce JsString DXService.
Context {engine : Engine}.

(** What a call that got its listeners leaves behind at close. *)
Lemma runCommand_closed (amb : Ambient) (c : Call) (child : ChildProcess)
    (before : list Event) (code : option Z) :
  has_stdout child = true -> has_stderr child = true ->
  let st0 := atClose c (Some child) before in
  let st := runCommand amb c (Some child) before code in
  st = onClose amb c st0 code /\
  shown st = (if sfdxNotFound st0 then [REMEDIATION] else []) /\
  promise st = Some (settle (bypassReject c) (error amb) code (parsed_stdout st0)).
Proof.
  intros Ho He st0 st.
  destruct (start_listening c child Ho He) as (Hl & Hp & Hs & _).
  destruct (deliver_frame before (start c (Some child))) as (Fs & Fl & _ & Fp).
  fold (atClose c (Some child) before) in Fs, Fl, Fp. fold st0 in Fs, Fl, Fp.
  assert (E : st = onClose amb c st0 code).
  { unfold st, runCommand. fold st0. now rewrite <- Fl, Hl. }
  split; [exact E|]. rewrite E. cbn [onClose shown promise].
  rewrite <- Fs, Hs, <- Fp, Hp. split; [|reflexivity].
  destruct (sfdxNotFound st0); reflexivity.
Qed.


Lemma number_pos_gt_zero (n : number) :
  number_pos n = true -> gt_zero (Json (JNumber n)) = Some true.
Proof. intros H. unfold gt_zero. cbn [ToNumber]. now rewrite H. Qed.

Lemma ToString_text (v : value) (t : string) :
  ToString v = Some t -> text v = t.
Proof.
  destruct v as [|j|e]; cbn [ToString text]; try (intros H; now injection H).
  unfold json_text. destruct (converts j); [|discriminate].
  intros H; now injection H.
Qed.

Lemma of_nat_pos (n : nat) : number_pos (of_nat n) = negb (Nat.eqb n 0).
Proof. destruct n; reflexivity. Qed.

(** A value that is not truthy has no positive [length]. *)
Lemma falsy_no_length (v : value) :
  truthy v = false -> gt_zero (get_opt v "length") = Some false.
Proof.
  destruct v as [|j|e]; [reflexivity | | discriminate].
  destruct j as [| b | n | s | items | fields]; try reflexivity;
    try discriminate.
  destruct s; [reflexivity | discriminate].
Qed.

Lemma list_length_gt_zero (items : list json) :
  gt_zero (get_opt (Json (JArray items)) "length")
  = Some match items with [] => false | _ :: _ => true end.
Proof. destruct items; reflexivity. Qed.

Lemma forEach_error_readable (items : list json) (acc : string) :
  Forall readable_item items ->
  exists text, forEach_error acc items = Some text.
Proof.
  intros H; revert acc.
  induction H as [|res rest (Hnull & Htext) _ IH]; intros acc; [now eexists|].
  destruct (ToString (get (Json res) "error")) as [t|] eqn:Ht; [|congruence].
  destruct (IH (acc +++ (t +++ " "))) as (text & Hrest).
  exists text.
  destruct res; [congruence | ..]; cbn [forEach_error]; rewrite Ht; exact Hrest.
Qed.

Lemma falsy_not_list (v : value) (first : json) (others : list json) :
  truthy v = false -> v <> Json (JArray (first :: others)).
Proof. intros H ->. discriminate. Qed.

Lemma append_assoc (a b c : string) : (a +++ b) +++ c = a +++ (b +++ c).
Proof. induction a as [|x a IH]; cbn; [reflexivity | now rewrite IH]. Qed.

Lemma forEach_error_concat (items : list json) (acc text : string) :
  forEach_error acc items = Some text ->
  text = acc +++ fold_right String.append EmptyString (map item_error items).
Proof.
  revert acc; induction items as [|res rest IH]; intros acc H.
  - cbn in H. injection H as <-. cbn.
    induction acc as [|x acc IHa]; cbn; [reflexivity | now rewrite <- IHa].
  - assert (Hrec : forEach_error (acc +++ item_error res) rest = Some text).
    { unfold item_error.
      destruct (ToString (get (Json res) "error")) as [t|] eqn:Ht.
      - rewrite (ToString_text _ _ Ht).
        destruct res; [discriminate H | ..]; cbn [forEach_error] in H;
          rewrite Ht in H; exact H.
      - destruct res; [discriminate H | ..]; cbn [forEach_error] in H;
          rewrite Ht in H; discriminate H. }
    rewrite (IH _ Hrec). cbn [map fold_right]. apply append_assoc.
Qed.

Lemma item_error_nonempty (res : json) (rest : string) :
  nonempty (item_error res +++ rest) = true.
Proof.
  unfold item_error.
  destruct (text (get (Json res) "error")); reflexivity.
Qed.

(** Whenever the close listener rejects, for any parsed stdout, the reason
    is the one the precedence of the specification names. *)
Lemma reject_reason_by_precedence (bypass : option bool) (amb : Ambient)
    (code : option Z) (json reason : value) :
  settle bypass (error amb) code json = Reject reason ->
  reason = failure_by_precedence (error amb) json.
Proof.
  unfold settle.
  destruct (shouldReject bypass code json) as [[|]|]; try discriminate.
  destruct (errMess json) as [mess|] eqn:E; [|discriminate].
  intros H; injection H as <-.
  assert (Hmsg : get_opt json "message" = get json "message").
  { unfold get_opt. destruct json as [|[]|]; reflexivity. }
  assert (Hres : get_opt json "result" = get json "result").
  { unfold get_opt. destruct json as [|[]|]; reflexivity. }
  unfold errMess in E. rewrite Hres in E.
  unfold rejectReason, failure_by_precedence, or_else. rewrite Hmsg.
  destruct (gt_zero (get_opt (get json "result") "length")) as [[|]|] eqn:Hlen;
    [| |discriminate E].
  - destruct (get json "result") as [|[| | | |items|]|]; try discriminate E.
    destruct (forEach_error EmptyString items) as [text|] eqn:Ht;
      [|discriminate E].
    injection E as <-.
    apply forEach_error_concat in Ht. cbn [String.append] in Ht. subst text.
    destruct items as [|first others]; [discriminate Hlen|].
    cbn [map fold_right truthy truthy_json].
    now rewrite item_error_nonempty.
  - injection E as <-. cbn [truthy].
    destruct (get json "result") as [|[| | | |[|first others]|]|];
      try (destruct (truthy (get json "message")); reflexivity).
    discriminate Hlen.
Qed.

End CloseFacts.

(* ===================================================================== *)
(** * runCommand: the classification of the outcome                        *)
(* ===================================================================== *)

Section Classification.
Import Js Coerce DXService Samples.

(** C1, as stated, fails: the close listener has no outcome of its own for
  a missing tool. With stderr saying "command not found", exit code 127
  and [bypassReject] set, the flag is true at close, the notification is
  shown, and the promise is fulfilled with [undefined] like any other
  tolerated run. *)
Lemma tool_missing_still_resolves :
sfdxNotFound (atClose report_call (Some (child 4242)) missing_tool) = true /\
promise (runCommand (engine := sample_engine) posix report_call
           (Some (child 4242)) missing_tool (Some 127%Z))
  = Some (Resolve Undefined) /\
observed (promise (runCommand (engine := sample_engine) posix report_call
                     (Some (child 4242)) missing_tool (Some 127%Z)))
  <> Some ToolNotFound.
Proof. repeat split; try reflexivity. vm_compute. discriminate. Qed.

(** C1, amended: when the tool-missing flag is true at close, exactly one
  remediation notification is shown, whatever the exit code and
  [bypassReject]; the promise is settled by the same test on exit code,
  parsed stdout and [bypassReject] as when the flag is false. *)
Theorem tool_missing_notifies_once {engine : Engine}
  (amb : Ambient) (c : Call) (cmd : ChildProcess) (before : list Event)
  (code : option Z) :
has_stdout cmd = true -> has_stderr cmd = true ->
sfdxNotFound (atClose c (Some cmd) before) = true ->
shown (runCommand amb c (Some cmd) before code) = [REMEDIATION] /\
promise (runCommand amb c (Some cmd) before code) =
  Some (settle (bypassReject c) (error amb) code
          (parsed_stdout (atClose c (Some cmd) before))).
Proof.
intros Ho He Hflag.
destruct (runCommand_closed amb c cmd before code Ho He) as (_ & Hs & Hp).
rewrite Hflag in Hs. now split.
Qed.

Lemma tool_missing_notifies_once_witness :
shown (runCommand (engine := sample_engine) posix display_call
         (Some (child 4242)) missing_tool (Some 127%Z)) = [REMEDIATION] /\
promise (runCommand (engine := sample_engine) posix display_call
           (Some (child 4242)) missing_tool (Some 127%Z)) =
  Some (settle (engine := sample_engine) (bypassReject display_call)
          (error posix) (Some 127%Z)
          (parsed_stdout (engine := sample_engine)
             (atClose display_call (Some (child 4242)) missing_tool))).
Proof.
exact (@tool_missing_notifies_once sample_engine posix display_call
         (child 4242) missing_tool (Some 127%Z) eq_refl eq_refl eq_refl).
Defined.



(** C3, as stated, fails: line 150 compares [json.status] with zero before
    line 151 looks at [json.exitCode], and nothing checks what kind of
    value the status is. For stdout
    [{"status":{"toString":null},"exitCode":1}] the exit-code field is a
    number above zero and there is no result payload, but the comparison
    of the status throws a TypeError: the promise is not rejected, it is
    never settled. *)
Lemma odd_status_throws_before_exit_code :
  bypassReject display_call = None /\
  sfdxNotFound (atClose display_call (Some (child 4242))
                  [StdoutData MoreSamples.odd_status_text]) = false /\
  JSON_parse (Engine := MoreSamples.third_engine)
    (stdout (atClose display_call (Some (child 4242))
               [StdoutData MoreSamples.odd_status_text]))
    = Some MoreSamples.odd_status_json /\
  get (Json MoreSamples.odd_status_json) "exitCode" = Json (JNumber (of_nat 1)) /\
  truthy (get (Json MoreSamples.odd_status_json) "result") = false /\
  promise (runCommand (engine := MoreSamples.third_engine) posix display_call
             (Some (child 4242)) [StdoutData MoreSamples.odd_status_text]
             (Some 1%Z)) = Some Throw /\
  observed (promise (runCommand (engine := MoreSamples.third_engine) posix
                       display_call (Some (child 4242))
                       [StdoutData MoreSamples.odd_status_text] (Some 1%Z)))
    = None.
Proof. repeat split. Qed.

(** C3, amended: without [bypassReject], the promise is rejected when
    stdout parses to JSON that carries either a numeric status above zero
    and no result payload (a [result] that is absent or falsy, as line
    150 tests it), or a numeric exit code above zero together with a
    status whose comparison with zero does not throw and a result that is
    no payload or a list of readable items. The reason follows the
    precedence: the per-item errors of a result list that is not empty,
    each followed by a space, in list order; else the JSON's message when
    truthy; else the error captured before the call. (The tool-missing
    flag plays no part, so it is not assumed false.) *)
Theorem failure_message_precedence {engine : Engine}
    (amb : Ambient) (c : Call) (cmd : ChildProcess) (before : list Event)
    (code : option Z) (j : json) :
  has_stdout cmd = true -> has_stderr cmd = true ->
  bypassReject c <> Some true ->
  JSON_parse (stdout (atClose c (Some cmd) before)) = Some j ->
  (((exists n, get (Json j) "status" = Json (JNumber n) /\ number_pos n = true) /\
    truthy (get (Json j) "result") = false) \/
   ((exists n, get (Json j) "exitCode" = Json (JNumber n) /\ number_pos n = true) /\
    gt_zero (get (Json j) "status") <> None /\
    (truthy (get (Json j) "result") = false \/
     exists items,
       get (Json j) "result" = Json (JArray items) /\
       Forall readable_item items))) ->
  promise (runCommand amb c (Some cmd) before code) =
    Some (Reject (failure_by_precedence (error amb) (Json j))).
Proof.
  intros Ho He Hb Hj Hfail.
  destruct (runCommand_closed amb c cmd before code Ho He) as (_ & _ & Hp).
  rewrite Hp. unfold parsed_stdout. rewrite Hj. f_equal.
  assert (Hobj : exists fields, j = JObject fields).
  { destruct j as [| | | s | items | fields]; [| | | | | now exists fields];
      destruct Hfail as [((m & H & _) & _) | ((m & H & _) & _)];
      try discriminate H;
      cbn in H; discriminate H. }
  destruct Hobj as (fields & ->).
  assert (Hopt : forall name, get_opt (Json (JObject fields)) name
                              = get (Json (JObject fields)) name)
    by reflexivity.
  assert (Hrej : shouldReject (bypassReject c) code (Json (JObject fields)) = Some true).
  { unfold shouldReject. rewrite !Hopt.
    replace (match bypassReject c with Some b => b | None => false end)
      with false by (destruct (bypassReject c) as [[|]|]; [congruence | reflexivity ..]).
    cbn [truthy truthy_json negb]. rewrite andb_false_r.
    destruct Hfail as [((n & -> & Hn) & ->) | ((n & -> & Hn) & Hst & _)].
    - now rewrite (number_pos_gt_zero n Hn).
    - rewrite (number_pos_gt_zero n Hn).
      destruct (gt_zero (get (Json (JObject fields)) "status")) as [[|]|];
        [|reflexivity|congruence].
      destruct (negb (truthy (get (Json (JObject fields)) "result"))); reflexivity. }
  assert (Herr : exists mess, errMess (Json (JObject fields)) = Some mess).
  { unfold errMess. rewrite Hopt.
    assert (Hshape : truthy (get (Json (JObject fields)) "result") = false \/
                     exists items,
                       get (Json (JObject fields)) "result" = Json (JArray items) /\
                       Forall readable_item items)
      by (destruct Hfail as [(_ & H) | (_ & _ & H)]; [now left | exact H]).
    destruct Hshape as [Hres | (items & -> & Hitems)].
    - rewrite (falsy_no_length _ Hres). now eexists.
    - rewrite list_length_gt_zero.
      destruct items as [|first others]; [now eexists|].
      destruct (forEach_error_readable (first :: others) EmptyString Hitems)
        as (text & ->).
      now eexists. }
  destruct Herr as (mess & Herr).
  assert (E : settle (bypassReject c) (error amb) code (Json (JObject fields))
              = Reject (rejectReason (error amb) (Json (JObject fields)) mess)).
  { unfold settle. now rewrite Hrej, Herr. }
  rewrite E. f_equal.
  exact (reject_reason_by_precedence _ amb code _ _ E).
Qed.

Lemma failure_message_precedence_witness :
  promise (runCommand (engine := MoreSamples.third_engine) posix display_call
             (Some (child 4242)) [StdoutData MoreSamples.items_text] (Some 1%Z))
  = Some (Reject (Json (JString "bad class bad trigger "))).
Proof.
  refine (@failure_message_precedence MoreSamples.third_engine posix display_call
            (child 4242) [StdoutData MoreSamples.items_text] (Some 1%Z)
            MoreSamples.items_json
            eq_refl eq_refl
            (fun H : None = Some true => eq_ind None
               (fun o => match o with None => True | Some _ => False end) I _ H)
            eq_refl
            (or_intror (conj (ex_intro _ (of_nat 1) (conj eq_refl eq_refl))
               (conj _ (or_intror (ex_intro _ _ (conj eq_refl _))))))).
  - discriminate.
  - repeat constructor; discriminate.
Defined.

(** C4, as stated, fails: line 149 asks for [code > 0], not for a code
    other than zero. A spawn refused with EACCES closes with code -13 and
    nothing on stdout; the flag stays false and the promise is fulfilled
    with [undefined]. *)
Lemma negative_exit_code_resolves :
  sfdxNotFound (atClose display_call (Some (child 4242)) spawn_refused) = false /\
  JSON_parse (Engine := sample_engine)
    (stdout (atClose display_call (Some (child 4242)) spawn_refused)) = None /\
  promise (runCommand (engine := sample_engine) posix display_call
             (Some (child 4242)) spawn_refused (Some (-13)%Z))
  = Some (Resolve Undefined).
Proof. repeat split. Qed.

(** C4, amended: without [bypassReject], when the process exits with a
    code above zero and stdout did not parse as JSON, the promise is
    rejected with the Error object created before the spawn, which holds
    the stack of the call. *)
Theorem positive_exit_without_json_rejects {engine : Engine}
    (amb : Ambient) (c : Call) (cmd : ChildProcess) (before : list Event)
    (z : Z) :
  has_stdout cmd = true -> has_stderr cmd = true ->
  bypassReject c <> Some true ->
  JSON_parse (stdout (atClose c (Some cmd) before)) = None ->
  (0 < z)%Z ->
  promise (runCommand amb c (Some cmd) before (Some z)) =
    Some (Reject (ErrorObject (error amb))) /\
  stack (error amb) = stack_at_call amb.
Proof.
  intros Ho He Hb Hj Hz.
  destruct (runCommand_closed amb c cmd before (Some z) Ho He) as (_ & _ & Hp).
  split; [|reflexivity].
  rewrite Hp. unfold parsed_stdout. rewrite Hj. f_equal.
  unfold settle, shouldReject, code_positive.
  replace (match bypassReject c with Some b => b | None => false end)
    with false by (destruct (bypassReject c) as [[|]|]; [congruence | reflexivity ..]).
  replace (Z.ltb 0 z) with true by (symmetry; apply Z.ltb_lt; exact Hz).
  replace (Z.eqb z 0) with false by (symmetry; apply Z.eqb_neq; lia).
  reflexivity.
Qed.

Lemma positive_exit_without_json_rejects_witness :
  promise (runCommand (engine := sample_engine) posix display_call
             (Some (child 4242)) [StdoutData "ERROR running"] (Some 1%Z)) =
    Some (Reject (ErrorObject (error posix))) /\
  stack (error posix) = stack_at_call posix.
Proof.
  exact (@positive_exit_without_json_rejects sample_engine posix display_call
           (child 4242) [StdoutData "ERROR running"] 1%Z
           eq_refl eq_refl
           (fun H : None = Some true => eq_ind None
              (fun o => match o with None => True | Some _ => False end) I _ H)
           eq_refl eq_refl).
Defined.

End Classification.

(* ===================================================================== *)
(** * runCommand: the tool-missing flag, refusal at spawn, cancellation    *)
(* ===================================================================== *)

Section FlagAndToken.
Import Js Coerce JsString DXService Samples.

(** Each stderr chunk that is not empty overwrites the flag. *)
Lemma onStderr_overwrites (st : State) (data : string) :
  nonempty data = true ->
  sfdxNotFound (onStderr st data) =
    includes "not found" (toLowerCase data) ||
    includes "not recognized" (toLowerCase data).
Proof. intros H. cbn [onStderr sfdxNotFound]. now rewrite H. Qed.

(** C5 fails on the code: line 123 assigns the flag anew on every chunk
    instead of keeping an earlier hit. cmd.exe reports a missing sfdx on two
    lines; when they arrive as two chunks, the first one contains "not
    recognized" and sets the flag, the second one resets it, and the flag
    is false when the close listener runs: no notification is shown. *)
Theorem later_chunk_resets_flag :
  includes "not recognized"
    (toLowerCase "'sfdx' is not recognized as an internal or external command,") = true /\
  sfdxNotFound
    (atClose display_call (Some (child 4242))
       [StderrData "'sfdx' is not recognized as an internal or external command,"]) = true /\
  sfdxNotFound (atClose display_call (Some (child 4242)) missing_tool_windows) = false /\
  shown (runCommand (engine := sample_engine) posix display_call
           (Some (child 4242)) missing_tool_windows (Some 1%Z)) = [].
Proof. repeat split. Qed.

(** C10: when spawn returns null, or a child without stdout or without
    stderr, the promise is rejected at once with no reason, and whatever
    happens afterwards leaves it so: nothing is accumulated, the flag
    stays false, nothing is shown, no listener is added to the token. *)
Theorem null_spawn_rejects_at_once {engine : Engine}
    (amb : Ambient) (c : Call) (cmd : option ChildProcess)
    (before : list Event) (code : option Z) :
  (cmd = None \/
   exists proc, cmd = Some proc /\
     (has_stdout proc = false \/ has_stderr proc = false)) ->
  promise (start c cmd) = Some (Reject Undefined) /\
  promise (runCommand amb c cmd before code) = Some (Reject Undefined) /\
  stdout (runCommand amb c cmd before code) = EmptyString /\
  sfdxNotFound (runCommand amb c cmd before code) = false /\
  shown (runCommand amb c cmd before code) = [] /\
  emitter (runCommand amb c cmd before code) =
    match cancellationToken c with Some ls => ls | None => [] end.
Proof.
  intros Hcmd. pose proof (start_refused c cmd Hcmd) as Hst.
  destruct (deliver_frame before (start c cmd)) as (Fs & Fl & Fe & Fp).
  fold (atClose c cmd before) in Fs, Fl, Fe, Fp.
  assert (Hl : listening (start c cmd) = false) by now rewrite Hst.
  destruct (deliver_unheard before (start c cmd) Hl) as (Uo & Uf).
  fold (atClose c cmd before) in Uo, Uf.
  unfold runCommand. rewrite <- Fl, Hl, <- Fp, <- Fs, <- Fe, Uo, Uf, Hst.
  repeat split.
Qed.

Lemma null_spawn_rejects_at_once_witness :
  promise (runCommand (engine := sample_engine) posix display_call None
             missing_tool (Some 127%Z)) = Some (Reject Undefined).
Proof.
  exact (proj1 (proj2 (@null_spawn_rejects_at_once sample_engine posix
           display_call None missing_tool (Some 127%Z) (or_introl eq_refl)))).
Defined.

(** C6, as stated, fails: nothing removes the listener of line 111. After
    a call with a fresh token has closed with code 0, the listener is
    still on the emitter, and firing the token calls tree-kill on the pid
    of the finished process. *)
Lemma cancel_after_close_still_kills :
  emitter (runCommand (engine := sample_engine) posix
             (call "apex:test:run -n T -w 3 -y" (Some []) None)
             (Some (child 4242)) [StdoutData "{}"] (Some 0%Z))
    = [Some 4242%Z] /\
  kills (runCommand (engine := sample_engine) posix
           (call "apex:test:run -n T -w 3 -y" (Some []) None)
           (Some (child 4242)) [StdoutData "{}"] (Some 0%Z)) = [] /\
  kills (step (runCommand (engine := sample_engine) posix
                 (call "apex:test:run -n T -w 3 -y" (Some []) None)
                 (Some (child 4242)) [StdoutData "{}"] (Some 0%Z)) Cancelled)
    = [Some 4242%Z].
Proof. repeat split. Qed.

(** C6, amended: the cancellation listener is registered at spawn and is
    never removed, neither by the events of the process nor by its close.
    Every firing of the token, while the process runs or after it has
    closed, calls tree-kill once for each listener on the token, with the
    pid that listener captured; for a token no earlier call has used this
    is exactly one signal per firing, to the tree of this process. *)
Theorem cancel_listener_stays {engine : Engine}
    (amb : Ambient) (c : Call) (cmd : ChildProcess) (before : list Event)
    (code : option Z) (earlier : list (option Z)) :
  has_stdout cmd = true -> has_stderr cmd = true ->
  cancellationToken c = Some earlier ->
  emitter (atClose c (Some cmd) before) = earlier ++ [pid cmd] /\
  emitter (runCommand amb c (Some cmd) before code) = earlier ++ [pid cmd] /\
  kills (step (atClose c (Some cmd) before) Cancelled) =
    kills (atClose c (Some cmd) before) ++ earlier ++ [pid cmd] /\
  kills (step (runCommand amb c (Some cmd) before code) Cancelled) =
    kills (runCommand amb c (Some cmd) before code) ++ earlier ++ [pid cmd].
Proof.
  intros Ho He Htok.
  destruct (start_listening c cmd Ho He) as (_ & _ & _ & Hem).
  rewrite Htok in Hem.
  destruct (deliver_frame before (start c (Some cmd))) as (_ & _ & Fe & _).
  fold (atClose c (Some cmd) before) in Fe.
  destruct (runCommand_closed amb c cmd before code Ho He) as (Hrun & _).
  assert (E1 : emitter (atClose c (Some cmd) before) = earlier ++ [pid cmd])
    by congruence.
  assert (E2 : emitter (runCommand amb c (Some cmd) before code) = earlier ++ [pid cmd])
    by (rewrite Hrun; exact E1).
  repeat split; [exact E1 | exact E2 | |]; cbn [step]; unfold onCancelled.
  - destruct (kill_all (emitter (atClose c (Some cmd) before))
                (atClose c (Some cmd) before)) as (_ & _ & _ & Hk).
    rewrite Hk, E1. reflexivity.
  - destruct (kill_all (emitter (runCommand amb c (Some cmd) before code))
                (runCommand amb c (Some cmd) before code)) as (_ & _ & _ & Hk).
    rewrite Hk, E2. reflexivity.
Qed.

Lemma cancel_listener_stays_witness :
  kills (step (atClose (call "apex:test:run -n T -w 3 -y" (Some []) None)
                 (Some (child 4242)) [StdoutData "{"]) Cancelled)
  = [Some 4242%Z].
Proof.
  exact (proj1 (proj2 (proj2 (@cancel_listener_stays sample_engine posix
           (call "apex:test:run -n T -w 3 -y" (Some []) None)
           (child 4242) [StdoutData "{"] (Some 0%Z) [] eq_refl eq_refl eq_refl)))).
Defined.

End FlagAndToken.

(* ===================================================================== *)
(** * checkStatus: the polling loop                                        *)
(* ===================================================================== *)

Section Polling.
Import Js BulkLoader.

Lemma terminal_not_nullish (res : value) :
  isTerminal res = true -> nullish res = false.
Proof. destruct res as [|[]|]; cbn; congruence. Qed.

Lemma checkStatus_initial :
  pending (checkStatus initial) = [0] /\ checks (checkStatus initial) = 0 /\
  posted (checkStatus initial) = [] /\ escaped (checkStatus initial) = [].
Proof. repeat split. Qed.

(** One firing with exactly one timer pending. *)
Lemma fire_once (check : nat -> CheckResult) (st : Poller) (t : nat) :
  pending st = [t] ->
  checks (fire check st) = S (checks st) /\
  posted (fire check st) = posted st ++ update_of (check (checks st)) /\
  escaped (fire check st) = escaped st /\
  pending (fire check st) =
    if goes_on (check (checks st)) then [fresh st] else [].
Proof.
  intros Hp. unfold fire. rewrite Hp.
  unfold timerCallback, tryBlock. cbn [checks].
  destruct (check (checks st)) as [res|e]; cbn [update_of goes_on].
  - destruct (nullish res) eqn:Hn; cbn [negb andb].
    + repeat split. cbn. now rewrite app_nil_r.
    + unfold isTerminal.
      destruct (strict_neq_string (get res "status") "Completed"); cbn [negb].
      * repeat split. cbn. destruct (timeOut st); reflexivity.
      * repeat split.
  - repeat split. cbn. now rewrite app_nil_r.
Qed.

Lemma fire_idle (check : nat -> CheckResult) (st : Poller) :
  pending st = [] -> fire check st = st.
Proof. intros Hp. unfold fire. now rewrite Hp. Qed.

Lemma poll_idle (n : nat) (check : nat -> CheckResult) (st : Poller) :
  pending st = [] -> poll n check st = st.
Proof.
  revert st; induction n as [|n IH]; intros st Hp; [reflexivity|].
  cbn [poll]. rewrite (fire_idle check st Hp). now apply IH.
Qed.

Lemma poll_add (n m : nat) (check : nat -> CheckResult) (st : Poller) :
  poll (n + m) check st = poll m check (poll n check st).
Proof.
  revert st; induction n as [|n IH]; intros st; [reflexivity|].
  cbn [Nat.add poll]. apply IH.
Qed.

Lemma flat_map_seq_snoc {A : Type} (f : nat -> list A) (a n : nat) :
  flat_map f (seq a (S n)) = flat_map f (seq a n) ++ f (a + n).
Proof. rewrite seq_S, flat_map_app. cbn. now rewrite app_nil_r. Qed.

(** While the checks keep the loop going, [k] firings make [k] checks and
    report them in order, and one timer is pending again. *)
Lemma poll_going (check : nat -> CheckResult) (k : nat) :
  (forall i, i < k -> goes_on (check i) = true) ->
  exists t,
    pending (run k check) = [t] /\ checks (run k check) = k /\
    posted (run k check) = updates check k /\ escaped (run k check) = [].
Proof.
  induction k as [|k IH]; intros Hgo.
  - exists 0. repeat split.
  - destruct IH as (t & Hp & Hc & Hu & He); [intros i Hi; apply Hgo; lia|].
    unfold run in *. replace (S k) with (k + 1) by lia.
    rewrite poll_add. cbn [poll].
    destruct (fire_once check _ t Hp) as (Fc & Fu & Fe & Fp).
    rewrite Hc in Fc, Fu, Fp. rewrite (Hgo k) in Fp by lia.
    eexists. repeat split; [exact Fp | rewrite Fc; lia | | congruence].
    rewrite Fu, Hu. unfold updates.
    replace (k + 1) with (S k) by lia.
    now rewrite flat_map_seq_snoc.
Qed.

(** The first check that does not keep the loop going ends it. *)
Lemma poll_until_stop (check : nat -> CheckResult) (k ticks : nat) :
  (forall i, i < k -> goes_on (check i) = true) ->
  goes_on (check k) = false ->
  k < ticks ->
  checks (run ticks check) = S k /\
  posted (run ticks check) = updates check k ++ update_of (check k) /\
  pending (run ticks check) = [] /\
  escaped (run ticks check) = [].
Proof.
  intros Hgo Hstop Hk.
  destruct (poll_going check k Hgo) as (t & Hp & Hc & Hu & He).
  unfold run in *.
  replace ticks with (k + S (ticks - S k)) by lia.
  rewrite poll_add. cbn [poll].
  destruct (fire_once check _ t Hp) as (Fc & Fu & Fe & Fp).
  rewrite Hc in Fc, Fu, Fp. rewrite Hstop in Fp.
  rewrite (poll_idle _ check _ Fp).
  repeat split; congruence.
Qed.

Lemma updates_length (check : nat -> CheckResult) (k : nat) :
  (forall i, i < k -> goes_on (check i) = true) ->
  List.length (updates check k) = k.
Proof.
  induction k as [|k IH]; intros Hgo; [reflexivity|].
  unfold updates in *. rewrite flat_map_seq_snoc, length_app, IH
    by (intros i Hi; apply Hgo; lia).
  cbn [Nat.add]. specialize (Hgo k (Nat.lt_succ_diag_r k)).
  destruct (check k) as [res|e]; cbn in Hgo; [|discriminate].
  cbn [update_of]. destruct (nullish res); [discriminate|]. cbn. lia.
Qed.

(** C8: when the first two status checks return a status that is not
    terminal and the third returns a terminal one, the loop makes exactly
    three checks, posts the three statuses in that order (of each one its
    [state], its [numberRecordsProcessed] and its [numberRecordsFailed]),
    and leaves no timer pending: however long it is observed, no further
    check is made. *)
Theorem three_checks_then_done (check : nat -> CheckResult)
    (r0 r1 r2 : value) (ticks : nat) :
  check 0 = Returns r0 -> check 1 = Returns r1 -> check 2 = Returns r2 ->
  nullish r0 = false -> isTerminal r0 = false ->
  nullish r1 = false -> isTerminal r1 = false ->
  isTerminal r2 = true ->
  3 <= ticks ->
  checks (run ticks check) = 3 /\
  posted (run ticks check) =
    [{| state := get r0 "state";
        processed := get r0 "numberRecordsProcessed";
        failures := get r0 "numberRecordsFailed" |};
     {| state := get r1 "state";
        processed := get r1 "numberRecordsProcessed";
        failures := get r1 "numberRecordsFailed" |};
     {| state := get r2 "state";
        processed := get r2 "numberRecordsProcessed";
        failures := get r2 "numberRecordsFailed" |}] /\
  pending (run ticks check) = [].
Proof.
  intros H0 H1 H2 N0 T0 N1 T1 T2 Hticks.
  pose proof (terminal_not_nullish r2 T2) as N2.
  destruct (poll_until_stop check 2 ticks) as (Hc & Hu & Hp & _).
  - intros [|[|i]] Hi; [rewrite H0 | rewrite H1 | lia]; cbn [goes_on].
    + now rewrite N0, T0.
    + now rewrite N1, T1.
  - rewrite H2. cbn [goes_on]. now rewrite N2, T2.
  - lia.
  - repeat split; [exact Hc | | exact Hp].
    rewrite Hu. unfold updates. cbn [seq flat_map].
    rewrite H0, H1, H2. cbn [update_of]. now rewrite N0, N1, N2.
Qed.

Lemma three_checks_then_done_witness :
  checks (run 7 Samples.three_step_check) = 3 /\
  posted (run 7 Samples.three_step_check) =
    [{| state := Json (JString "InProgress");
        processed := Json (JNumber (of_nat 10));
        failures := Json (JNumber (of_nat 1)) |};
     {| state := Json (JString "InProgress");
        processed := Json (JNumber (of_nat 10));
        failures := Json (JNumber (of_nat 1)) |};
     {| state := Json (JString "Completed");
        processed := Json (JNumber (of_nat 10));
        failures := Json (JNumber (of_nat 1)) |}] /\
  pending (run 7 Samples.three_step_check) = [].
Proof.
  apply (three_checks_then_done Samples.three_step_check
           (Samples.batchInfo "InProgress" "InProgress")
           (Samples.batchInfo "InProgress" "InProgress")
           (Samples.batchInfo "Completed" "Completed") 7);
    try reflexivity.
  lia.
Defined.

(** C9: when a status check throws, after checks that all kept the loop
    going, the loop stops there: that check is the last one, only the
    earlier statuses have been posted, no timer is pending, and the
    callback ends normally, so nothing escapes as a rejection. *)
Theorem failed_check_stops_polling (check : nat -> CheckResult)
    (k ticks : nat) (e : value) :
  (forall i, i < k -> goes_on (check i) = true) ->
  check k = Throws e ->
  k < ticks ->
  checks (run ticks check) = S k /\
  posted (run ticks check) = updates check k /\
  List.length (posted (run ticks check)) = k /\
  pending (run ticks check) = [] /\
  escaped (run ticks check) = [].
Proof.
  intros Hgo Hthrow Hk.
  destruct (poll_until_stop check k ticks Hgo) as (Hc & Hu & Hp & He);
    [now rewrite Hthrow | exact Hk |].
  rewrite Hthrow in Hu. cbn [update_of] in Hu. rewrite app_nil_r in Hu.
  repeat split; try assumption.
  rewrite Hu. now apply updates_length.
Qed.

Lemma failed_check_stops_polling_witness :
  checks (run 5 Samples.failing_check) = 2 /\
  posted (run 5 Samples.failing_check) = updates Samples.failing_check 1 /\
  List.length (posted (run 5 Samples.failing_check)) = 1 /\
  pending (run 5 Samples.failing_check) = [] /\
  escaped (run 5 Samples.failing_check) = [].
Proof.
  apply (failed_check_stops_polling Samples.failing_check 1 5
           (Json (JString "ECONNRESET"))).
  - intros [|i] Hi; [reflexivity | lia].
  - reflexivity.
  - lia.
Defined.

End Polling.

(** The per-item errors are reached through [exitCode]: a result list is
    a payload, so the [status] test of line 150 does not let it in. *)
Example item_errors_through_exit_code :
  DXService.settle (engine := Samples.sample_engine) None
    (DXService.error Samples.posix) (Some 1%Z)
    (Js.Json (Js.JObject
       [("exitCode", Js.JNumber (Js.of_nat 1));
        ("result", Js.JArray [Js.JObject [("error", Js.JString "bad class")];
                              Js.JObject [("error", Js.JString "bad trigger")]])]))
  = DXService.Reject (Js.Json (Js.JString "bad class bad trigger ")).
Proof. reflexivity. Qed.

(** execAnon hands the encoded file name to runCommand, which decodes it
    back into one argument. *)
Example execAnon_argument :
  DXService.args Samples.posix
    {| DXService.cmdString := "apex:execute --apexcodefile " +++
                              ArgumentCodec.encode "/tmp/my dir/execAnon.tmp";
       DXService.targetusername := true;
       DXService.cancellationToken := None;
       DXService.bypassReject := None |}
  = ["force:apex:execute"; "--apexcodefile"; "/tmp/my dir/execAnon.tmp";
     "--targetusername"; "dev@example.org"; "--json"].
Proof. reflexivity. Qed.

(* ===================================================================== *)
(** * More on split, join and includes                                     *)
(* ===================================================================== *)

Section Pieces.
Import JsString ArgumentCodec.

Lemma append_nil_r (s : string) : s +++ EmptyString = s.
Proof. induction s as [|x s IH]; cbn; [reflexivity | now rewrite IH]. Qed.

Lemma includes_app_r (p a b : string) :
  includes p b = true -> includes p (a +++ b) = true.
Proof.
  intros H. induction a as [|x a IH]; [exact H|].
  cbn [String.append includes]. rewrite IH. apply orb_true_r.
Qed.

(** A one-character pattern occurs in a concatenation where it occurs in
    a part. *)
Lemma includes_char_app (c : ascii) (a b : string) :
  includes (String c EmptyString) (a +++ b)
  = includes (String c EmptyString) a || includes (String c EmptyString) b.
Proof.
  induction a as [|x a IH].
  - cbn. destruct b; reflexivity.
  - cbn [String.append includes startsWith]. rewrite IH.
    destruct a; cbn [String.append startsWith];
      rewrite ?andb_true_r, ?orb_assoc; reflexivity.
Qed.

(** Splitting at a character distributes over a concatenation at that
    character. *)
Lemma split_char_app (c : ascii) (a b : string) :
  split_go (String c EmptyString) 0 (a +++ String c b)
  = split_go (String c EmptyString) 0 a ++ split_go (String c EmptyString) 0 b.
Proof.
  induction a as [|x a IH].
  - cbn. now rewrite Ascii.eqb_refl.
  - cbn [String.append split_go startsWith String.length Nat.sub].
    destruct (Ascii.eqb c x); cbn [andb].
    + rewrite IH. reflexivity.
    + rewrite IH.
      pose proof (split_go_nonempty (String c EmptyString) 0 a) as Hne.
      destruct (split_go (String c EmptyString) 0 a) as [|p ps];
        [congruence | reflexivity].
Qed.

(** A text without the character is one piece. *)
Lemma split_char_whole (c : ascii) (s : string) :
  includes (String c EmptyString) s = false ->
  split_go (String c EmptyString) 0 s = [s].
Proof.
  induction s as [|x s IH]; intros H; [reflexivity|].
  cbn [includes] in H. apply orb_false_iff in H as [Hx Hs].
  cbn [split_go]. rewrite Hx, (IH Hs). reflexivity.
Qed.

Lemma split_char_length (c : ascii) (s : string) :
  List.length (split_go (String c EmptyString) 0 s)
  = S (BulkLoad.occurrences c s).
Proof.
  induction s as [|x s IH]; [reflexivity|].
  cbn [split_go startsWith String.length Nat.sub BulkLoad.occurrences].
  destruct (Ascii.eqb c x); cbn [andb].
  - cbn [List.length]. rewrite IH. reflexivity.
  - pose proof (split_go_nonempty (String c EmptyString) 0 s) as Hne.
    destruct (split_go (String c EmptyString) 0 s) as [|p ps];
      [congruence | exact IH].
Qed.

Lemma encode_spaceless (s : string) : includes " " (encode s) = false.
Proof.
  induction s as [|c r IH]; [reflexivity|].
  destruct (ascii_dec c " ") as [->|Hc].
  - rewrite encode_space, includes_char_app, IH. reflexivity.
  - rewrite (encode_other c r Hc).
    cbn [includes startsWith]. rewrite IH.
    destruct (Ascii.eqb_spec " "%char c); [congruence | reflexivity].
Qed.

Lemma decode_plain (t : string) :
  includes SENTINEL t = false -> decode t = t.
Proof.
  induction t as [|c r IH]; intros H; [reflexivity|].
  apply includes_head in H as [H0 Hr].
  rewrite (decode_other c r H0), (IH Hr). reflexivity.
Qed.

End Pieces.

(* ===================================================================== *)
(** * runCommand: the command line and its arguments                       *)
(* ===================================================================== *)

Section CommandLine.
Import Js JsString ArgumentCodec DXService DXCommands.

Lemma fullCommand_form (amb : Ambient) (c : Call) :
  exists t, tail_like t /\
    fullCommand amb c =
      (if isWindows amb then "cmd /c " else EmptyString) +++
      "sfdx force:" +++ cmdString c +++ t.
Proof.
  unfold fullCommand.
  fold (userPart amb c).
  set (base := "sfdx force:" +++ cmdString c +++ userPart amb c).
  assert (Hu : forall flag, tail_like flag -> tail_like (userPart amb c +++ flag)).
  { intros flag Hf. unfold userPart.
    destruct (targetusername c), (currentConnection amb);
      try exact Hf; right; eexists; reflexivity. }
  destruct (includes "--json" (if isWindows amb then "cmd /c " +++ base else base)).
  - exists (userPart amb c +++ EmptyString). split; [apply Hu; now left|].
    rewrite append_nil_r. destruct (isWindows amb); reflexivity.
  - exists (userPart amb c +++ " --json").
    split; [apply Hu; right; eexists; reflexivity|].
    unfold base. destruct (isWindows amb); rewrite !append_assoc; reflexivity.
Qed.

Lemma split_before_tail (a t : string) :
  tail_like t ->
  exists rest, split_go " " 0 (a +++ t) = split_go " " 0 a ++ rest.
Proof.
  intros [-> | (r & ->)].
  - exists []. now rewrite append_nil_r, app_nil_r.
  - eexists. apply split_char_app.
Qed.

Lemma parts_form (amb : Ambient) (c : Call) :
  exists t, tail_like t /\
    parts amb c =
      (if isWindows amb then ["cmd"; "/c"] else []) ++
      "sfdx" :: split_go " " 0 ("force:" +++ cmdString c +++ t).
Proof.
  destruct (fullCommand_form amb c) as (t & Ht & E).
  exists t. split; [exact Ht|].
  unfold parts, split. rewrite E.
  destruct (isWindows amb).
  - change ("cmd /c " +++ "sfdx force:" +++ cmdString c +++ t)
      with ("cmd" +++ String " " ("/c" +++ String " "
              ("sfdx" +++ String " " ("force:" +++ cmdString c +++ t)))).
    rewrite !split_char_app. reflexivity.
  - change (EmptyString +++ "sfdx force:" +++ cmdString c +++ t)
      with ("sfdx" +++ String " " ("force:" +++ cmdString c +++ t)).
    rewrite split_char_app. reflexivity.
Qed.

Lemma args_form (amb : Ambient) (c : Call) :
  exists t, tail_like t /\
    args amb c =
      shellArgs amb ++
      map decode (split_go " " 0 ("force:" +++ cmdString c +++ t)).
Proof.
  destruct (parts_form amb c) as (t & Ht & E).
  exists t. split; [exact Ht|].
  unfold args, shellArgs. rewrite E. destruct (isWindows amb); reflexivity.
Qed.

(** Lines 86-88: whatever the command text, the connection and the
    platform, the command line that is split and spawned contains
    [--json]. *)
Theorem fullCommand_asks_for_json (amb : Ambient) (c : Call) :
  includes "--json" (fullCommand amb c) = true.
Proof.
  unfold fullCommand.
  match goal with
  | |- context [if includes "--json" ?cmd then _ else _] =>
      destruct (includes "--json" cmd) eqn:E
  end.
  - exact E.
  - now apply includes_app_r.
Qed.

(** Lines 74-94: the program spawned does not depend on the command text:
    it is [sfdx], or [cmd] on Windows, where [/c sfdx] are then the first
    two arguments. *)
Theorem commandName_is_fixed (amb : Ambient) (c : Call) :
  commandName amb c = Some (if isWindows amb then "cmd" else "sfdx") /\
  exists rest, args amb c = shellArgs amb ++ rest.
Proof.
  split.
  - destruct (parts_form amb c) as (t & _ & E).
    unfold commandName. rewrite E. destruct (isWindows amb); reflexivity.
  - destruct (args_form amb c) as (t & _ & E). eexists. exact E.
Qed.

(** Lines 183-184 with 90-94: a file name that contains neither the
    sentinel nor its first ten characters followed by a space reaches the
    process as one argument, equal to the name, right after
    [--apexcodefile], whatever spaces it holds. *)
Theorem execAnon_file_is_one_argument (amb : Ambient) (file : string)
    (token : list (option Z)) :
  includes SENTINEL file = false ->
  includes "#FC*SPACE* " file = false ->
  exists rest,
    args amb (execAnon_call file token) =
      shellArgs amb ++ ["force:apex:execute"; "--apexcodefile"; file] ++ rest.
Proof.
  intros Hs Hp.
  destruct (args_form amb (execAnon_call file token)) as (t & Ht & E).
  rewrite E. cbn [execAnon_call cmdString].
  change ("force:" +++ ("apex:execute --apexcodefile " +++ encode file) +++ t)
    with ("force:apex:execute" +++ String " "
            ("--apexcodefile" +++ String " " (encode file +++ t))).
  rewrite !split_char_app.
  destruct (split_before_tail (encode file) t Ht) as (rest & ->).
  rewrite (split_char_whole " " (encode file) (encode_spaceless file)).
  exists (map decode rest).
  rewrite !map_app. cbn [map app].
  rewrite (roundtrip_aux file Hs Hp). reflexivity.
Qed.

Lemma execAnon_file_is_one_argument_witness :
  exists rest,
    args Samples.posix (execAnon_call "/tmp/my dir/execAnon.tmp" []) =
      shellArgs Samples.posix ++
      ["force:apex:execute"; "--apexcodefile"; "/tmp/my dir/execAnon.tmp"] ++ rest.
Proof.
  exact (execAnon_file_is_one_argument Samples.posix "/tmp/my dir/execAnon.tmp" []
           eq_refl eq_refl).
Defined.

(** Lines 281-283 with 90-94: deleteSource does not encode its path, so
    the path reaches the process cut at its spaces: as many arguments
    between [-p] and [-r] as the path has pieces, one more than it has
    spaces. *)
Theorem deleteSource_path_is_cut_at_spaces (amb : Ambient) (thePath : string)
    (token : list (option Z)) :
  List.length (split " " thePath) = S (BulkLoad.occurrences " " thePath) /\
  exists rest,
    args amb (deleteSource thePath token) =
      shellArgs amb ++ ["force:source:delete"; "-p"] ++
      map decode (split " " thePath) ++ "-r" :: rest.
Proof.
  split; [apply split_char_length|].
  destruct (args_form amb (deleteSource thePath token)) as (t & Ht & E).
  rewrite E. cbn [deleteSource cmdString].
  replace ("force:" +++ ("source:delete -p " +++ thePath +++ " -r") +++ t)
    with ("force:source:delete" +++ String " "
            ("-p" +++ String " " (thePath +++ String " " ("-r" +++ t))))
    by (cbn [String.append]; now rewrite append_assoc).
  rewrite !split_char_app.
  destruct (split_before_tail "-r" t Ht) as (rest & ->).
  exists (map decode rest).
  rewrite !map_app. reflexivity.
Qed.

(** Lines 294-306: with [packageXML] the path of a deployment is the
    argument after [-x]; without it the path is glued to [-p] in a single
    argument (for a path without spaces and without the sentinel). *)
Theorem deploySourceFormat_arguments (amb : Ambient) (pXMLPath : string)
    (token : list (option Z)) (packageXML : option bool) :
  includes " " pXMLPath = false ->
  includes SENTINEL pXMLPath = false ->
  exists rest,
    args amb (deploySourceFormat pXMLPath token packageXML) =
      shellArgs amb ++
      "force:source:deploy" ::
      (match packageXML with
       | Some true => ["-x"; pXMLPath]
       | _ => ["-p" +++ pXMLPath]
       end) ++ rest.
Proof.
  intros Hsp Hs.
  destruct (args_form amb (deploySourceFormat pXMLPath token packageXML))
    as (t & Ht & E).
  rewrite E. cbn [deploySourceFormat cmdString].
  assert (Hglued : includes " " ("-p" +++ pXMLPath) = false).
  { cbn [String.append includes startsWith]. rewrite Hsp.
    destruct pXMLPath; reflexivity. }
  assert (Hplain : decode ("-p" +++ pXMLPath) = "-p" +++ pXMLPath).
  { apply decode_plain. cbn [String.append includes startsWith SENTINEL].
    rewrite Hs. reflexivity. }
  assert (Hx : packageXML = Some true \/
               (match packageXML with Some true => "x " | _ => "p" end) = "p")
    by (destruct packageXML as [[|]|]; auto).
  destruct Hx as [-> | Hp].
  - change ("force:" +++ ("source:deploy -" +++ "x " +++ pXMLPath) +++ t)
      with ("force:source:deploy" +++ String " "
              ("-x" +++ String " " (pXMLPath +++ t))).
    rewrite !split_char_app.
    destruct (split_before_tail pXMLPath t Ht) as (rest & ->).
    rewrite (split_char_whole " " pXMLPath Hsp).
    exists (map decode rest). rewrite !map_app. cbn [map app].
    now rewrite (decode_plain pXMLPath Hs).
  - rewrite Hp.
    replace (match packageXML with Some true => ["-x"; pXMLPath] | _ => ["-p" +++ pXMLPath] end)
      with ["-p" +++ pXMLPath]
      by (destruct packageXML as [[|]|]; [discriminate Hp | reflexivity ..]).
    change ("force:" +++ ("source:deploy -" +++ "p" +++ pXMLPath) +++ t)
      with ("force:source:deploy" +++ String " " (("-p" +++ pXMLPath) +++ t)).
    rewrite split_char_app.
    destruct (split_before_tail ("-p" +++ pXMLPath) t Ht) as (rest & ->).
    rewrite (split_char_whole " " _ Hglued).
    exists (map decode rest). rewrite !map_app. cbn [map app].
    now rewrite Hplain.
Qed.

Lemma deploySourceFormat_arguments_witness :
  exists rest,
    args Samples.posix (deploySourceFormat "manifest/package.xml" [] None) =
      shellArgs Samples.posix ++
      "force:source:deploy" :: ["-pmanifest/package.xml"] ++ rest.
Proof.
  exact (deploySourceFormat_arguments Samples.posix "manifest/package.xml" [] None
           eq_refl eq_refl).
Defined.

End CommandLine.

(* ===================================================================== *)
(** * runCommand: buffers, flag and outcome over whole runs                *)
(* ===================================================================== *)

Section Runs.
Import Js Coerce JsString DXService DXCommands.

Lemma deliver_app (st : State) (a b : list Event) :
  deliver st (a ++ b) = deliver (deliver st a) b.
Proof. apply fold_left_app. Qed.

Lemma deliver_listening (evs : list Event) (st : State) :
  listening (deliver st evs) = listening st.
Proof. destruct (deliver_frame evs st) as (_ & H & _). now symmetry. Qed.

Lemma atClose_listening (c : Call) (cmd : ChildProcess) (before : list Event) :
  has_stdout cmd = true -> has_stderr cmd = true ->
  listening (atClose c (Some cmd) before) = true.
Proof.
  intros Ho He. unfold atClose. rewrite deliver_listening.
  now destruct (start_listening c cmd Ho He).
Qed.

Lemma deliver_stdout (evs : list Event) (st : State) :
  listening st = true ->
  stdout (deliver st evs) = stdout st +++ stdout_chunks evs.
Proof.
  revert st; induction evs as [|ev evs IH]; intros st Hl.
  - cbn. now rewrite append_nil_r.
  - cbn [deliver fold_left]. fold (deliver (step st ev) evs).
    assert (Hl' : listening (step st ev) = true).
    { destruct (step_frame st ev) as (_ & H & _). congruence. }
    rewrite (IH _ Hl').
    destruct ev; cbn [step stdout_chunks]; rewrite ?Hl; try reflexivity.
    + cbn [onStdout stdout]. apply append_assoc.
    + destruct (kill_all (emitter st) st) as (_ & H & _).
      unfold onCancelled. now rewrite H.
Qed.

Lemma atClose_stdout (c : Call) (cmd : ChildProcess) (before : list Event) :
  has_stdout cmd = true -> has_stderr cmd = true ->
  stdout (atClose c (Some cmd) before) = stdout_chunks before.
Proof.
  intros Ho He. unfold atClose.
  destruct (start_listening c cmd Ho He) as (Hl & _).
  rewrite (deliver_stdout before _ Hl).
  unfold start. rewrite Ho, He. cbn [andb].
  destruct (cancellationToken c); reflexivity.
Qed.

(** Lines 113-116: when close comes, the text handed to [JSON.parse] is
    the stdout chunks in the order of delivery, whatever stderr chunks,
    error events and cancellations came in between. *)
Theorem stdout_is_the_chunks_in_order (c : Call) (cmd : ChildProcess)
    (before : list Event) :
  has_stdout cmd = true -> has_stderr cmd = true ->
  stdout (atClose c (Some cmd) before) = stdout_chunks before.
Proof. apply atClose_stdout. Qed.

Lemma stdout_is_the_chunks_in_order_witness :
  stdout (atClose Samples.display_call (Some (Samples.child 4242))
            [StdoutData "{"; StderrData "warning"; Cancelled; StdoutData "}"])
  = "{}".
Proof.
  exact (stdout_is_the_chunks_in_order Samples.display_call (Samples.child 4242)
           [StdoutData "{"; StderrData "warning"; Cancelled; StdoutData "}"]
           eq_refl eq_refl).
Defined.

Lemma step_keeps_flag (st : State) (ev : Event) :
  keeps_flag ev = true -> sfdxNotFound (step st ev) = sfdxNotFound st.
Proof.
  destruct ev; cbn [keeps_flag step]; intros H; try discriminate.
  - destruct (listening st); reflexivity.
  - destruct (listening st); [|reflexivity].
    cbn [onStderr sfdxNotFound].
    destruct (nonempty data); [discriminate | reflexivity].
  - destruct (kill_all (emitter st) st) as (_ & _ & Hf & _). exact Hf.
Qed.

Lemma deliver_keeps_flag (evs : list Event) (st : State) :
  forallb keeps_flag evs = true ->
  sfdxNotFound (deliver st evs) = sfdxNotFound st.
Proof.
  revert st; induction evs as [|ev evs IH]; intros st H; [reflexivity|].
  cbn [forallb] in H. apply andb_true_iff in H as [Hev Hrest].
  cbn [deliver fold_left]. fold (deliver (step st ev) evs).
  rewrite (IH _ Hrest). now apply step_keeps_flag.
Qed.

(** Lines 118-126: the flag the close listener finds is the verdict on
    the last stderr chunk that was not empty, when no error event follows
    it: what earlier chunks said is lost. *)
Theorem last_stderr_chunk_decides (c : Call) (cmd : ChildProcess)
    (earlier later : list Event) (data : string) :
  has_stdout cmd = true -> has_stderr cmd = true ->
  nonempty data = true ->
  forallb keeps_flag later = true ->
  sfdxNotFound (atClose c (Some cmd) (earlier ++ StderrData data :: later)) =
    includes "not found" (toLowerCase data) ||
    includes "not recognized" (toLowerCase data).
Proof.
  intros Ho He Hd Hl. unfold atClose.
  rewrite deliver_app. cbn [deliver fold_left].
  fold (deliver (step (deliver (start c (Some cmd)) earlier) (StderrData data)) later).
  rewrite (deliver_keeps_flag later _ Hl).
  cbn [step]. fold (atClose c (Some cmd) earlier).
  rewrite (atClose_listening c cmd earlier Ho He).
  cbn [onStderr sfdxNotFound]. now rewrite Hd.
Qed.

Lemma last_stderr_chunk_decides_witness :
  sfdxNotFound
    (atClose Samples.display_call (Some (Samples.child 4242))
       ([StderrData "sh: 1: sfdx: command not found"] ++
        StderrData "Warning: update available" :: [StdoutData "{}"]))
  = false.
Proof.
  exact (last_stderr_chunk_decides Samples.display_call (Samples.child 4242)
           [StderrData "sh: 1: sfdx: command not found"] [StdoutData "{}"]
           "Warning: update available" eq_refl eq_refl eq_refl eq_refl).
Defined.

(** Lines 128-152: when the last word on the flag is an error event that
    names ENOENT (the spawn found no sfdx), stdout does not parse and the
    close code is not above zero (Node closes with the negated errno),
    the user is shown the remediation message once and the promise is
    fulfilled with [undefined], not rejected, whatever [bypassReject]. *)
Theorem missing_binary_resolves_undefined {engine : Engine}
    (amb : Ambient) (c : Call) (cmd : ChildProcess)
    (earlier later : list Event) (data : ErrorObj) (code : option Z) :
  has_stdout cmd = true -> has_stderr cmd = true ->
  includes "ENOENT" (message data) = true ->
  forallb keeps_flag later = true ->
  JSON_parse (stdout_chunks (earlier ++ ProcessError data :: later)) = None ->
  match code with Some z => (z <= 0)%Z | None => True end ->
  shown (runCommand amb c (Some cmd) (earlier ++ ProcessError data :: later) code)
    = [REMEDIATION] /\
  promise (runCommand amb c (Some cmd) (earlier ++ ProcessError data :: later) code)
    = Some (Resolve Undefined).
Proof.
  intros Ho He Hm Hl Hj Hcode.
  destruct (runCommand_closed amb c cmd (earlier ++ ProcessError data :: later)
              code Ho He) as (_ & Hs & Hp).
  assert (Hflag : sfdxNotFound
            (atClose c (Some cmd) (earlier ++ ProcessError data :: later)) = true).
  { unfold atClose. rewrite deliver_app. cbn [deliver fold_left].
    fold (deliver (step (deliver (start c (Some cmd)) earlier) (ProcessError data)) later).
    rewrite (deliver_keeps_flag later _ Hl).
    cbn [step]. fold (atClose c (Some cmd) earlier).
    rewrite (atClose_listening c cmd earlier Ho He). exact Hm. }
  rewrite Hflag in Hs. split; [exact Hs|].
  rewrite Hp. unfold parsed_stdout.
  rewrite (atClose_stdout c cmd _ Ho He), Hj.
  unfold settle, shouldReject.
  assert (Hc : code_positive code = false).
  { destruct code as [z|]; [|reflexivity]. cbn [code_positive].
    replace (Z.ltb 0 z) with false by (symmetry; apply Z.ltb_ge; exact Hcode).
    apply andb_false_r. }
  rewrite Hc. destruct (bypassReject c) as [[|]|]; reflexivity.
Qed.

Lemma missing_binary_resolves_undefined_witness :
  shown (runCommand (engine := Samples.sample_engine) Samples.posix
           Samples.display_call (Some (Samples.child 4242))
           ([] ++ MoreSamples.spawn_enoent) (Some (-2)%Z)) = [REMEDIATION] /\
  promise (runCommand (engine := Samples.sample_engine) Samples.posix
             Samples.display_call (Some (Samples.child 4242))
             ([] ++ MoreSamples.spawn_enoent) (Some (-2)%Z))
    = Some (Resolve Undefined).
Proof.
  refine (@missing_binary_resolves_undefined Samples.sample_engine Samples.posix
            Samples.display_call (Samples.child 4242) [] []
            {| message := "spawn sfdx ENOENT"; stack := "Error: spawn sfdx ENOENT" |}
            (Some (-2)%Z) eq_refl eq_refl eq_refl eq_refl eq_refl _).
  cbn. lia.
Defined.

Lemma truthy_not_nullish (v : value) : truthy v = true -> nullish v = false.
Proof. destruct v as [|[]|]; cbn; congruence. Qed.

Lemma get_opt_get (v : value) (name : string) :
  nullish v = false -> get_opt v name = get v name.
Proof. intros H. unfold get_opt. now rewrite H. Qed.

(** A value with a truthy property is itself truthy. *)
Lemma truthy_property (v : value) (name : string) :
  truthy (get v name) = true -> truthy v = true.
Proof.
  destruct v as [|[| | |s|items|fields]|e]; cbn; try discriminate; try reflexivity.
  destruct (String.eqb name "length"); [|discriminate].
  destruct s; cbn; [discriminate | reflexivity].
Qed.

(** Lines 146-164: the exit code counts only while stdout gave no JSON.
    Once stdout parsed to a truthy JSON value whose [status] and
    [exitCode] can be compared with zero (neither comparison throws),
    whose [exitCode] is not above zero, and whose [status] is not above
    zero unless it carries a result payload, the promise is fulfilled
    with [json.result], whatever the exit code and [bypassReject]. *)
Theorem parsed_output_overrides_exit_code {engine : Engine}
    (amb : Ambient) (c : Call) (cmd : ChildProcess) (before : list Event)
    (code : option Z) (j : json) :
  has_stdout cmd = true -> has_stderr cmd = true ->
  JSON_parse (stdout_chunks before) = Some j ->
  truthy (Json j) = true ->
  gt_zero (get (Json j) "exitCode") = Some false ->
  (gt_zero (get (Json j) "status") = Some false \/
   (gt_zero (get (Json j) "status") = Some true /\
    truthy (get (Json j) "result") = true)) ->
  promise (runCommand amb c (Some cmd) before code)
    = Some (Resolve (get (Json j) "result")).
Proof.
  intros Ho He Hj Ht Hexit Hok.
  destruct (runCommand_closed amb c cmd before code Ho He) as (_ & _ & Hp).
  rewrite Hp. unfold parsed_stdout. rewrite (atClose_stdout c cmd _ Ho He), Hj.
  pose proof (truthy_not_nullish _ Ht) as Hn.
  unfold settle, shouldReject. rewrite !(get_opt_get _ _ Hn), Ht, Hexit.
  cbn [negb]. rewrite andb_false_r.
  destruct Hok as [-> | (-> & ->)]; cbn [negb];
    destruct (bypassReject c) as [[|]|]; reflexivity.
Qed.

Lemma parsed_output_overrides_exit_code_witness :
  promise (runCommand (engine := MoreSamples.second_engine) Samples.posix
             Samples.display_call (Some (Samples.child 4242))
             [StdoutData MoreSamples.partial_text] (Some 1%Z))
  = Some (Resolve (Json (JObject [("id", JString "0Af")]))).
Proof.
  exact (@parsed_output_overrides_exit_code MoreSamples.second_engine
           Samples.posix Samples.display_call (Samples.child 4242)
           [StdoutData MoreSamples.partial_text] (Some 1%Z)
           MoreSamples.partial_json
           eq_refl eq_refl eq_refl eq_refl eq_refl
           (or_intror (conj eq_refl eq_refl))).
Defined.

Lemma text_length_positive {engine : Engine} (s : string) :
  gt_zero (get_opt (Json (JString s)) "length") = Some (nonempty s).
Proof. destruct s; reflexivity. Qed.

Lemma forEach_error_null {engine : Engine} (items : list json) (acc : string) :
  In JNull items -> forEach_error acc items = None.
Proof.
  revert acc; induction items as [|res rest IH]; intros acc H; [contradiction|].
  destruct H as [-> | H]; [reflexivity|].
  destruct res; [reflexivity | ..]; cbn [forEach_error];
    match goal with
    | |- context [ToString ?v] => destruct (ToString v)
    end; solve [apply (IH _ H) | reflexivity].
Qed.

(** Lines 154-160: without [bypassReject], a JSON with an [exitCode]
    above zero whose [result] is a text that is not empty, or a list with
    a [null] item, makes the close listener throw a TypeError before it
    resolves or rejects: the promise of runCommand is never settled. *)
Theorem close_listener_can_throw {engine : Engine}
    (amb : Ambient) (c : Call) (cmd : ChildProcess) (before : list Event)
    (code : option Z) (j : json) :
  has_stdout cmd = true -> has_stderr cmd = true ->
  bypassReject c <> Some true ->
  JSON_parse (stdout_chunks before) = Some j ->
  gt_zero (get (Json j) "exitCode") = Some true ->
  ((exists s, get (Json j) "result" = Json (JString s) /\ nonempty s = true) \/
   (exists items, get (Json j) "result" = Json (JArray items) /\ In JNull items)) ->
  promise (runCommand amb c (Some cmd) before code) = Some Throw /\
  observed (promise (runCommand amb c (Some cmd) before code)) = None.
Proof.
  intros Ho He Hb Hj Hexit Hres.
  destruct (runCommand_closed amb c cmd before code Ho He) as (_ & _ & Hp).
  assert (E : promise (runCommand amb c (Some cmd) before code) = Some Throw).
  { rewrite Hp. unfold parsed_stdout. rewrite (atClose_stdout c cmd _ Ho He), Hj.
    assert (Hn : nullish (Json j) = false).
    { destruct j; try reflexivity.
      destruct Hres as [(s & H & _) | (items & H & _)]; discriminate H. }
    assert (Herr : errMess (Json j) = None).
    { unfold errMess. rewrite (get_opt_get _ _ Hn).
      destruct Hres as [(s & -> & Hs) | (items & -> & Hin)].
      - rewrite text_length_positive, Hs. reflexivity.
      - rewrite list_length_gt_zero.
        destruct items as [|first others]; [contradiction|].
        now rewrite (forEach_error_null _ EmptyString Hin). }
    assert (Hrej : shouldReject (bypassReject c) code (Json j) <> Some false).
    { unfold shouldReject. rewrite !(get_opt_get _ _ Hn), Hexit.
      replace (match bypassReject c with Some b => b | None => false end)
        with false by (destruct (bypassReject c) as [[|]|]; [congruence | reflexivity ..]).
      destruct (code_positive code && negb (truthy (Json j))); [discriminate|].
      destruct (gt_zero (get (Json j) "status")) as [[|]|]; try discriminate.
      destruct (negb (truthy (get (Json j) "result"))); discriminate. }
    unfold settle. rewrite Herr.
    destruct (shouldReject (bypassReject c) code (Json j)) as [[|]|];
      [reflexivity | congruence | reflexivity]. }
  split; [exact E | now rewrite E].
Qed.

Lemma close_listener_can_throw_witness :
  promise (runCommand (engine := MoreSamples.second_engine) Samples.posix
             Samples.display_call (Some (Samples.child 4242))
             [StdoutData MoreSamples.text_result_text] (Some 1%Z)) = Some Throw /\
  observed (promise (runCommand (engine := MoreSamples.second_engine) Samples.posix
             Samples.display_call (Some (Samples.child 4242))
             [StdoutData MoreSamples.text_result_text] (Some 1%Z))) = None.
Proof.
  exact (@close_listener_can_throw MoreSamples.second_engine
           Samples.posix Samples.display_call (Samples.child 4242)
           [StdoutData MoreSamples.text_result_text] (Some 1%Z)
           MoreSamples.text_result_json
           eq_refl eq_refl
           (fun H : None = Some true => eq_ind None
              (fun o => match o with None => True | Some _ => False end) I _ H)
           eq_refl eq_refl
           (or_introl (ex_intro _ "boom" (conj eq_refl eq_refl)))).
Defined.

(** Lines 285-292: getDeployErrors sets [bypassReject], so once the
    process closes its promise is fulfilled with [json?.result]: no exit
    code and no output makes it reject or throw. *)
Theorem getDeployErrors_never_rejects {engine : Engine}
    (amb : Ambient) (deploymentId : string) (token : list (option Z))
    (cmd : ChildProcess) (before : list Event) (code : option Z) :
  has_stdout cmd = true -> has_stderr cmd = true ->
  promise (runCommand amb (getDeployErrors deploymentId token) (Some cmd) before code)
    = Some (Resolve
              (get_opt (match JSON_parse (stdout_chunks before) with
                        | Some j => Json j
                        | None => Undefined
                        end) "result")).
Proof.
  intros Ho He.
  destruct (runCommand_closed amb (getDeployErrors deploymentId token) cmd
              before code Ho He) as (_ & _ & Hp).
  rewrite Hp. unfold parsed_stdout. rewrite (atClose_stdout _ cmd _ Ho He).
  reflexivity.
Qed.

Lemma getDeployErrors_never_rejects_witness :
  promise (runCommand (engine := Samples.sample_engine) Samples.posix
             (getDeployErrors "0Af" []) (Some (Samples.child 4242))
             [StdoutData "ERROR running"] (Some 1%Z))
  = Some (Resolve Undefined).
Proof.
  exact (@getDeployErrors_never_rejects Samples.sample_engine Samples.posix
           "0Af" [] (Samples.child 4242) [StdoutData "ERROR running"] (Some 1%Z)
           eq_refl eq_refl).
Defined.

End Runs.

(* ===================================================================== *)
(** * Cancellation and the outcome; orgList                                *)
(* ===================================================================== *)

Section CancelAndOrgs.
Import Js Coerce JsString DXService DXCommands.

Lemma same_result_refl (a : State) : same_result a a.
Proof. repeat split. Qed.

Lemma kill_all_same (ls : list (option Z)) (a : State) :
  same_result (fold_left killPromise ls a) a.
Proof.
  destruct (kill_all ls a) as ((Hs & Hl & He & Hp) & Ho & Hf & _).
  repeat split; congruence.
Qed.

Lemma same_result_trans (a b c : State) :
  same_result a b -> same_result b c -> same_result a c.
Proof.
  intros (A1 & A2 & A3 & A4 & A5 & A6) (B1 & B2 & B3 & B4 & B5 & B6).
  repeat split; congruence.
Qed.

Lemma same_result_sym (a b : State) : same_result a b -> same_result b a.
Proof. intros (A1 & A2 & A3 & A4 & A5 & A6). repeat split; congruence. Qed.

Lemma step_same (a b : State) (ev : Event) :
  same_result a b -> same_result (step a ev) (step b ev).
Proof.
  intros H. pose proof H as (Ho & Hf & Hs & Hl & He & Hp).
  destruct ev; cbn [step]; rewrite <- ?Hl.
  - destruct (listening a) eqn:La; [|exact H].
    repeat split; cbn; rewrite ?Ho, ?Hf, ?Hs, ?He, ?Hp; congruence.
  - destruct (listening a) eqn:La; [|exact H].
    repeat split; cbn; rewrite ?Ho, ?Hf, ?Hs, ?He, ?Hp; congruence.
  - destruct (listening a) eqn:La; [|exact H].
    repeat split; cbn; rewrite ?Ho, ?Hf, ?Hs, ?He, ?Hp; congruence.
  - unfold onCancelled.
    eapply same_result_trans; [apply kill_all_same|].
    eapply same_result_trans; [exact H|].
    apply same_result_sym, kill_all_same.
Qed.

Lemma deliver_same (evs : list Event) (a b : State) :
  same_result a b ->
  same_result (deliver a evs)
    (deliver b (filter (fun ev => negb (is_cancelled ev)) evs)).
Proof.
  revert a b; induction evs as [|ev evs IH]; intros a b H; [exact H|].
  cbn [deliver fold_left filter]. fold (deliver (step a ev) evs).
  destruct (is_cancelled ev) eqn:E; cbn [negb].
  - destruct ev; try discriminate E. apply IH.
    eapply same_result_trans; [apply kill_all_same | exact H].
  - cbn [deliver fold_left].
    fold (deliver (step b ev) (filter (fun ev => negb (is_cancelled ev)) evs)).
    apply IH, step_same, H.
Qed.

Lemma onClose_same {engine : Engine} (amb : Ambient) (c : Call)
    (a b : State) (code : option Z) :
  same_result a b ->
  same_result (onClose amb c a code) (onClose amb c b code).
Proof.
  intros (Ho & Hf & Hs & Hl & He & Hp).
  unfold onClose, parsed_stdout; repeat split; cbn;
    rewrite ?Ho, ?Hf, ?Hs, ?Hl, ?He, ?Hp; reflexivity.
Qed.

(** Lines 109-112 and 169-176: firing the token does nothing to the call
    but log a line and call tree-kill. The text gathered, the flag, the
    notifications and the way the promise is settled at close are the
    same as if the firings among the events had not happened: the
    outcome changes only through what the killed process then does. *)
Theorem cancellation_alone_changes_nothing {engine : Engine}
    (amb : Ambient) (c : Call) (cmd : option ChildProcess)
    (before : list Event) (code : option Z) :
  same_result
    (runCommand amb c cmd before code)
    (runCommand amb c cmd
       (filter (fun ev => negb (is_cancelled ev)) before) code).
Proof.
  unfold runCommand, atClose.
  pose proof (deliver_same before _ _ (same_result_refl (start c cmd))) as H.
  pose proof H as (_ & _ & _ & Hl & _).
  rewrite <- Hl.
  destruct (listening (deliver (start c cmd) before)); [|exact H].
  now apply onClose_same.
Qed.

(** Lines 195-206: when stdout does not parse, orgList never rejects:
    whether runCommand rejects (exit code above zero) or resolves with
    [undefined] (on which [res.nonScratchOrgs] throws), the catch marks
    every connection logged out, keeps their names, and the promise is
    fulfilled with [undefined]. *)
Theorem orgList_without_json_logs_everyone_out {engine : Engine}
    (amb : Ambient) (cmd : ChildProcess) (before : list Event)
    (code : option Z) (conns : list Connection) :
  has_stdout cmd = true -> has_stderr cmd = true ->
  JSON_parse (stdout_chunks before) = None ->
  orgList amb (Some cmd) before code conns
    = (Fulfilled OrgUndefined, logoutAll conns) /\
  Forall (fun conn => isLoggedIn conn = false)
    (snd (orgList amb (Some cmd) before code conns)) /\
  map orgName (snd (orgList amb (Some cmd) before code conns))
    = map orgName conns.
Proof.
  intros Ho He Hj.
  assert (E : orgList amb (Some cmd) before code conns
              = (Fulfilled OrgUndefined, logoutAll conns)).
  { unfold orgList.
    destruct (runCommand_closed amb orgList_call cmd before code Ho He)
      as (_ & _ & Hp).
    rewrite Hp. unfold parsed_stdout.
    rewrite (atClose_stdout _ cmd _ Ho He), Hj.
    unfold settle, shouldReject. cbn [orgList_call bypassReject].
    cbn [truthy negb]. rewrite andb_true_r.
    destruct (code_positive code); reflexivity. }
  rewrite E. cbn [snd]. split; [reflexivity|]. split.
  - unfold logoutAll. apply Forall_forall. intros conn Hin.
    apply in_map_iff in Hin as (x & <- & _). reflexivity.
  - unfold logoutAll. rewrite map_map. reflexivity.
Qed.

Lemma orgList_without_json_logs_everyone_out_witness :
  orgList (engine := Samples.sample_engine) Samples.posix
    (Some (Samples.child 4242)) [StdoutData "ERROR running"] (Some 1%Z)
    MoreSamples.two_orgs
  = (Fulfilled OrgUndefined, logoutAll MoreSamples.two_orgs).
Proof.
  exact (proj1 (@orgList_without_json_logs_everyone_out Samples.sample_engine
           Samples.posix (Samples.child 4242) [StdoutData "ERROR running"]
           (Some 1%Z) MoreSamples.two_orgs eq_refl eq_refl eq_refl)).
Defined.

(** Lines 195-199: when stdout parses to a JSON whose [status] and
    [exitCode] can be compared with zero (neither comparison throws) and
    are not above zero, and whose [result] holds the two lists,
    orgList is fulfilled with the non-scratch orgs followed by the scratch
    orgs, and the connections are left as they were. *)
Theorem orgList_lists_both_kinds {engine : Engine}
    (amb : Ambient) (cmd : ChildProcess) (before : list Event)
    (code : option Z) (conns : list Connection)
    (j : json) (plain scratch : list json) :
  has_stdout cmd = true -> has_stderr cmd = true ->
  JSON_parse (stdout_chunks before) = Some j ->
  gt_zero (get (Json j) "status") = Some false ->
  gt_zero (get (Json j) "exitCode") = Some false ->
  get (get (Json j) "result") "nonScratchOrgs" = Json (JArray plain) ->
  get (get (Json j) "result") "scratchOrgs" = Json (JArray scratch) ->
  orgList amb (Some cmd) before code conns
    = (Fulfilled (OrgArray (map Json plain ++ map Json scratch)), conns).
Proof.
  intros Ho He Hj Hst Hex Hp Hs.
  assert (Hres : nullish (get (Json j) "result") = false).
  { destruct (get (Json j) "result") as [|[]|]; try reflexivity; discriminate Hp. }
  assert (Hn : nullish (Json j) = false).
  { destruct j; try reflexivity. discriminate Hres. }
  assert (Ht : truthy (Json j) = true).
  { destruct j as [| | |s| |]; try reflexivity; try discriminate Hn;
      cbn in Hres; discriminate Hres. }
  unfold orgList.
  destruct (runCommand_closed amb orgList_call cmd before code Ho He)
    as (_ & _ & Hpr).
  rewrite Hpr. unfold parsed_stdout.
  rewrite (atClose_stdout _ cmd _ Ho He), Hj.
  unfold settle, shouldReject. rewrite !(get_opt_get _ _ Hn), Ht, Hst, Hex.
  cbn [negb orgList_call bypassReject]. rewrite andb_false_r.
  unfold orgList_chain, concatOrgs. rewrite Hres, Hp, Hs. reflexivity.
Qed.

Lemma orgList_lists_both_kinds_witness :
  orgList (engine := MoreSamples.second_engine) Samples.posix
    (Some (Samples.child 4242)) [StdoutData MoreSamples.orgs_text] (Some 0%Z)
    MoreSamples.two_orgs
  = (Fulfilled (OrgArray [Json (JObject [("username", JString "a@x.org")]);
                          Json (JObject [("username", JString "b@x.org")])]),
     MoreSamples.two_orgs).
Proof.
  exact (@orgList_lists_both_kinds MoreSamples.second_engine Samples.posix
           (Samples.child 4242) [StdoutData MoreSamples.orgs_text] (Some 0%Z)
           MoreSamples.two_orgs MoreSamples.orgs_json
           [JObject [("username", JString "a@x.org")]]
           [JObject [("username", JString "b@x.org")]]
           eq_refl eq_refl eq_refl eq_refl eq_refl eq_refl eq_refl).
Defined.

End CancelAndOrgs.

(* ===================================================================== *)
(** * BulkLoader: the record count, the load callback and the timer        *)
(* ===================================================================== *)

Section Loading.
Import Js Coerce JsString BulkLoader BulkLoad.

(** Line 58: the record count shown for a chosen file is the number of
    line feeds in it, so a file that ends with a line feed counts one
    record more than it has rows after the header. *)
Theorem totalRecords_counts_line_feeds (contents : string) :
  totalRecords contents = occurrences (ascii_of_nat 10) contents.
Proof.
  unfold totalRecords, split, newline.
  rewrite split_char_length. apply Nat.sub_0_r.
Qed.




Lemma tracked_checkStatus (p : Poller) : tracked p -> tracked (checkStatus p).
Proof.
  unfold tracked, checkStatus. cbn [pending timeOut].
  destruct (pending p) as [|t [|u rest]]; intros H; try contradiction.
  - destruct (timeOut p); reflexivity.
  - rewrite H. cbn. rewrite Nat.eqb_refl. reflexivity.
Qed.

Lemma tracked_fire (check : nat -> CheckResult) (p : Poller) :
  tracked p -> tracked (fire check p).
Proof.
  intros H. unfold fire.
  destruct (pending p) as [|t [|u rest]] eqn:Hp;
    [exact H | | unfold tracked in H; rewrite Hp in H; contradiction].
  unfold timerCallback, tryBlock. cbn [checks].
  destruct (check (checks p)) as [res|e]; [|exact I].
  destruct (nullish res); [exact I|].
  destruct (strict_neq_string (get res "status") "Completed"); [|exact I].
  apply tracked_checkStatus. exact I.
Qed.

Lemma tracked_cleared (p : Poller) : tracked p -> pending (clearPending p) = [].
Proof.
  unfold tracked, clearPending.
  destruct (pending p) as [|t [|u rest]] eqn:Hp; intros H; try contradiction.
  - destruct (timeOut p); cbn [pending]; rewrite ?Hp; reflexivity.
  - rewrite H. cbn [pending]. rewrite ?Hp. cbn. now rewrite Nat.eqb_refl.
Qed.

Lemma onLoaded_pending {engine : Engine} (err : value) (rets : list json)
    (records : option nat) (st : Panel) :
  tracked (poller st) ->
  pending (poller (fst (onLoaded err rets records st))) = [] /\
  checks (poller (fst (onLoaded err rets records st))) = checks (poller st).
Proof.
  intros H. pose proof (tracked_cleared _ H) as Hc.
  assert (Hk : checks (clearPending (poller st)) = checks (poller st))
    by (unfold clearPending; destruct (timeOut (poller st)); reflexivity).
  unfold onLoaded. destruct (truthy err); [now split|].
  destruct (scanRets 0 rets 0 HEADER) as [[n file]|]; now split.
Qed.

Lemma tracked_poll (check : nat -> CheckResult) (n : nat) (p : Poller) :
  tracked p -> tracked (poll n check p).
Proof.
  revert p; induction n as [|n IH]; intros p H; [exact H|].
  cbn [poll]. apply IH, tracked_fire, H.
Qed.

Lemma tracked_run (check : nat -> CheckResult) (k : nat) : tracked (run k check).
Proof. apply tracked_poll, tracked_checkStatus. exact I. Qed.

(** Lines 78-80 with 127-144: the callback of the load clears the timer
    of the polling loop. Whatever the load ended with, when it calls back
    between two checks the loop is over: however many timer firings are
    awaited, no further status check is made. *)
Theorem load_end_stops_polling {engine : Engine}
    (check : nat -> CheckResult) (k ticks : nat)
    (err : value) (rets : list json) (records : option nat)
    (seen : list Notice) :
  checks (poll ticks check
            (poller (fst (onLoaded err rets records
                            {| poller := run k check; notices := seen |}))))
    = checks (run k check) /\
  pending (poll ticks check
             (poller (fst (onLoaded err rets records
                             {| poller := run k check; notices := seen |}))))
    = [].
Proof.
  destruct (onLoaded_pending err rets records
              {| poller := run k check; notices := seen |}
              (tracked_run check k)) as (Hp & Hc).
  rewrite (poll_idle ticks check _ Hp). split; [exact Hc | exact Hp].
Qed.

(** The step of the polling loop that C8 and C9 take at once is the
    callback up to the [await] followed by the callback from there on. *)
Lemma fire_in_two_steps (check : nat -> CheckResult) (p : Poller) :
  fire check p =
    match beginCheck p with
    | Some waiting => resumeCheck (check (checks p)) waiting
    | None => p
    end.
Proof.
  unfold fire, beginCheck. destruct (pending p) as [|t later]; [reflexivity|].
  unfold timerCallback, tryBlock, resumeCheck. cbn [checks].
  destruct (check (checks p)) as [res|e]; [|reflexivity].
  destruct (nullish res); [reflexivity|].
  destruct (strict_neq_string (get res "status") "Completed"); reflexivity.
Qed.

Lemma tracked_beginCheck (p waiting : Poller) :
  tracked p -> beginCheck p = Some waiting -> pending waiting = [].
Proof.
  unfold tracked, beginCheck.
  destruct (pending p) as [|t [|u rest]]; intros H E;
    [discriminate E | | contradiction].
  injection E as <-. reflexivity.
Qed.

Lemma tracked_resumeCheck (r : CheckResult) (p : Poller) :
  tracked p -> tracked (resumeCheck r p).
Proof.
  intros H. unfold resumeCheck. destruct r as [res|e]; [|exact H].
  destruct (nullish res); [exact H|].
  destruct (strict_neq_string (get res "status") "Completed").
  - apply tracked_checkStatus. exact H.
  - exact H.
Qed.

Lemma tracked_happen {engine : Engine} (s : Session) (m : Moment) :
  tracked (poller (panel s)) -> tracked (poller (panel (happen s m))).
Proof.
  intros H. destruct m as [| |r|err rets records]; cbn [happen].
  - cbn [panel poller]. now apply tracked_checkStatus.
  - destruct (beginCheck (poller (panel s))) as [p|] eqn:E; [|exact H].
    cbn [panel poller]. unfold tracked.
    now rewrite (tracked_beginCheck _ _ H E).
  - destruct (awaiting s); [exact H|].
    cbn [panel poller]. now apply tracked_resumeCheck.
  - cbn [panel].
    destruct (onLoaded_pending err rets records (panel s) H) as (Hp & _).
    unfold tracked. now rewrite Hp.
Qed.

(** Lines 78-80, 115 and 127-143: however load requests, timer firings,
    ends of awaited status checks and load callbacks follow one another
    on an opened panel, also with callbacks arriving while a check is
    awaited, at most one polling timer is pending. *)
Theorem at_most_one_timer {engine : Engine} (moments : list Moment) :
  List.length (pending (poller (panel (fold_left happen moments started)))) <= 1.
Proof.
  assert (H : tracked (poller (panel (fold_left happen moments started)))).
  { assert (H0 : tracked (poller (panel started))) by exact I.
    revert H0. generalize started.
    induction moments as [|m moments IH]; intros s H0; [exact H0|].
    cbn [fold_left]. apply IH. now apply tracked_happen. }
  unfold tracked in H.
  destruct (pending (poller (panel (fold_left happen moments started))))
    as [|t [|u rest]]; cbn; [lia | lia | contradiction].
Qed.

(** Lines 78-80 with 131-141: the callback of the load stops the polling
    only between two checks. When it arrives while a status check is
    awaited, and that check then returns a result that is not terminal,
    the callback of the timer sets a new timer: the polling goes on after
    the load has ended. *)
Theorem load_end_during_check_does_not_stop_polling {engine : Engine}
    (s : Session) (err : value) (rets : list json) (records : option nat)
    (r : CheckResult) :
  0 < awaiting s ->
  goes_on r = true ->
  pending (poller (panel (happen (happen s (LoadEnds err rets records))
                            (CheckSettles r)))) <> [].
Proof.
  intros Hw Hgo. cbn [happen awaiting panel].
  destruct (awaiting s) as [|others]; [lia|]. cbn [panel poller].
  destruct r as [res|e]; [|discriminate Hgo]. cbn [goes_on] in Hgo.
  apply andb_true_iff in Hgo as [Hn Ht].
  unfold resumeCheck, isTerminal in *.
  destruct (nullish res); [discriminate Hn|].
  destruct (strict_neq_string (get res "status") "Completed");
    [|discriminate Ht].
  unfold checkStatus. cbn [pending].
  intros E. apply app_eq_nil in E as [_ E]. discriminate E.
Qed.

Lemma load_end_during_check_does_not_stop_polling_witness :
  pending (poller (panel
    (happen (engine := Samples.sample_engine)
       (happen (engine := Samples.sample_engine)
          (happen (engine := Samples.sample_engine)
             (happen (engine := Samples.sample_engine) started LoadRequested)
             TimerFires)
          (LoadEnds (Json JNull) MoreSamples.two_rets (Some 2)))
       (CheckSettles (MoreSamples.stateful_check 0))))) <> [].
Proof.
  apply (@load_end_during_check_does_not_stop_polling Samples.sample_engine
           (happen (engine := Samples.sample_engine)
              (happen (engine := Samples.sample_engine) started LoadRequested)
              TimerFires)
           (Json JNull) MoreSamples.two_rets (Some 2)
           (MoreSamples.stateful_check 0)).
  - cbn. lia.
  - reflexivity.
Defined.

(** Lines 127-144: the loop ends only on a check that throws or on a
    result whose [status] is 'Completed'. While every check returns a
    result without that status (one that reports its progress under
    [state], say), each timer firing makes one more check and sets the
    next timer: after any number of firings the loop is still running. *)
Theorem polling_goes_on_without_status (check : nat -> CheckResult)
    (ticks : nat) :
  (forall i, goes_on (check i) = true) ->
  checks (run ticks check) = ticks /\
  List.length (posted (run ticks check)) = ticks /\
  exists t, pending (run ticks check) = [t].
Proof.
  intros Hgo.
  destruct (poll_going check ticks (fun i _ => Hgo i)) as (t & Hp & Hc & Hu & _).
  split; [exact Hc|]. split; [|exists t; exact Hp].
  rewrite Hu. apply updates_length. intros i _. apply Hgo.
Qed.

Lemma polling_goes_on_without_status_witness :
  checks (run 6 MoreSamples.stateful_check) = 6 /\
  List.length (posted (run 6 MoreSamples.stateful_check)) = 6 /\
  exists t, pending (run 6 MoreSamples.stateful_check) = [t].
Proof.
  exact (polling_goes_on_without_status MoreSamples.stateful_check 6
           (fun i => eq_refl)).
Defined.

End Loading.

(* ===================================================================== *)
(** * The codec on arguments; the reason of every rejection                *)
(* ===================================================================== *)

Section ArgumentsAndReasons.
Import Js Coerce JsString ArgumentCodec DXService DXCommands.

(** Line 183: whatever the file name, its encoding holds no space, so
    the split of line 90 never cuts it. *)
Theorem encoded_name_has_no_space (file : string) :
  includes " " (encode file) = false /\
  split " " (encode file) = [encode file].
Proof.
  split; [apply encode_spaceless|].
  apply (split_char_whole " " (encode file)), encode_spaceless.
Qed.

(** Line 93: an argument that does not contain the sentinel is handed to
    the process as it is. *)
Theorem plain_argument_passes_unchanged (arg : string) :
  includes SENTINEL arg = false -> decode arg = arg.
Proof. apply decode_plain. Qed.

Lemma plain_argument_passes_unchanged_witness :
  decode "--targetusername" = "--targetusername".
Proof. exact (plain_argument_passes_unchanged "--targetusername" eq_refl). Defined.

(** Lines 154-161: whenever the close listener rejects, whatever the
    JSON, the reason is the text of the per-item errors when [result] is
    a list that is not empty, else the JSON's [message] when truthy, else
    the Error object created before the spawn. *)
Theorem rejection_reason_follows_precedence {engine : Engine}
    (amb : Ambient) (c : Call) (cmd : ChildProcess) (before : list Event)
    (code : option Z) (reason : value) :
  has_stdout cmd = true -> has_stderr cmd = true ->
  promise (runCommand amb c (Some cmd) before code) = Some (Reject reason) ->
  reason =
    failure_by_precedence (error amb)
      (match JSON_parse (stdout_chunks before) with
       | Some j => Json j
       | None => Undefined
       end).
Proof.
  intros Ho He Hrej.
  destruct (runCommand_closed amb c cmd before code Ho He) as (_ & _ & Hp).
  rewrite Hp in Hrej. unfold parsed_stdout in Hrej.
  rewrite (atClose_stdout c cmd before Ho He) in Hrej.
  injection Hrej as Hrej.
  exact (reject_reason_by_precedence _ amb code _ reason Hrej).
Qed.

Lemma rejection_reason_follows_precedence_witness :
  Json (JString "No org") =
    failure_by_precedence (engine := Samples.sample_engine)
      (error Samples.posix)
      (match JSON_parse (Engine := Samples.sample_engine)
               (stdout_chunks [StdoutData Samples.failed_text]) with
       | Some j => Json j
       | None => Undefined
       end).
Proof.
  exact (@rejection_reason_follows_precedence Samples.sample_engine
           Samples.posix Samples.display_call (Samples.child 4242)
           [StdoutData Samples.failed_text] (Some 1%Z)
           (Json (JString "No org")) eq_refl eq_refl eq_refl).
Defined.

End ArgumentsAndReasons.
